(** * kubefed: cluster unjoin and cluster health probing

    A shallow embedding of

    - [pkg/kubefedctl/unjoin.go]   (package kubefedctl: [Complete], [Run],
      [UnjoinCluster] and the teardown helpers),
    - [pkg/kubefedctl/options/options.go] ([CommonJoinOptions.SetName]),
    - [pkg/controller/kubefedcluster/clusterclient.go]
      ([GetClusterHealthStatus], [GetClusterZones]).

    The Go code talks to two API servers.  Every request it issues is
    answered here by an environment [Env] that sees the whole history of the
    run so far, and is appended, with its outcome, to a trace.  The trace
    also records the entry into each helper of the unjoin flow and the call
    of [IsPrimaryCluster], so that "function [f] was called" is a statement
    about the trace.  Logging ([klog]) is left out: it has no influence on
    control flow. *)

From stdpp Require Import base option list strings gmap sorting.
From Stdlib Require Import Ascii String.

Open Scope string_scope.
Open Scope list_scope.

(** ** Go errors *)

Module Errors.

(** [metav1.StatusReason], the part this code can observe. *)
Inductive StatusReason :=
| StatusReasonNotFound
| StatusReasonForbidden
| StatusReasonUnauthorized
| StatusReasonConflict
| StatusReasonTimeout
| StatusReasonInternalError
| StatusReasonUnknown.

(** A Go [error] value: an API status error, a plain message
    ([errors.New]) or an annotated cause ([errors.Wrapf], kept as the
    format string and its arguments). *)
Inductive error :=
| StatusError (reason : StatusReason) (message : string)
| New (message : string)
| Wrapf (cause : error) (format : string) (args : list string).

(** Modelled from the spec: [apierrors.IsNotFound] is not under src/.
    "NotFound — the target object is already absent": the predicate holds
    of an API status error whose reason is NotFound. *)
Definition IsNotFound (err : option error) : bool :=
  match err with
  | Some (StatusError StatusReasonNotFound _) => true
  | _ => false
  end.

(** [err != nil] *)
Definition notNil {A} (x : option A) : bool :=
  match x with Some _ => true | None => false end.

End Errors.
Import Errors.

(** ** API objects and clients *)

(** [*rest.Config]: opaque to this code, which only passes it on. *)
Record rest_Config := { cfg_Host : string }.

(** [*kubeclient.Clientset] and [genericclient.Client]: handles bound to
    one API server. *)
Record Clientset := { cs_server : string }.
Record Client := { gc_server : string }.

(** Modelled from the spec: the namespace type and
    [controllerutil.IsPrimaryCluster] are not under src/.  "The primacy test
    is an identity comparison (not a name comparison, since both are fetched
    by the same name)": two copies are the same object when their UIDs
    agree. *)
Record Namespace := { ns_Name : string; ns_UID : string }.

Definition IsPrimaryCluster (obj clusterObj : Namespace) : bool :=
  bool_decide (ns_UID obj = ns_UID clusterObj).

(** [fedv1a1.KubefedCluster], the fields unjoin reads. *)
Record KubefedCluster := {
  kc_Namespace : string;
  kc_Name : string;
  kc_Spec_SecretRef_Name : string
}.

(** ** Requests, events and the environment *)

Inductive Verb := GET | DELETE.

Inductive Kind :=
| ClusterRoleBindings | ClusterRoles | RoleBindings | Roles
| ServiceAccounts | Namespaces | Secrets | KubefedClusters.

(** One REST request; cluster-scoped kinds carry the empty namespace. *)
Record Request := {
  r_server : string;
  r_verb : Verb;
  r_kind : Kind;
  r_namespace : string;
  r_name : string
}.

(** The functions of the unjoin flow whose entry is recorded. *)
Inductive Fn :=
| fn_deleteRBACResources
| fn_deleteClusterRoleAndBinding
| fn_deleteServiceAccount
| fn_deleteFedNSFromUnjoinCluster
| fn_IsPrimaryCluster
| fn_deleteKubefedClusterAndSecret.

Inductive Event :=
| Enter (f : Fn)
| Api (r : Request) (outcome : option error).

Definition Trace := list Event.

(** Everything outside the package: the client constructors and naming
    helpers of package [util] (not under src/), and the API servers. The
    servers answer a request knowing the history of the run.

    [util.HostClientset] and [genericclient.New] return either a client or
    an error; [UnjoinCluster] uses their result without a nil test.
    [util.ClusterClientset] keeps both components of the Go pair, because
    [UnjoinCluster] tests the client and the error separately. *)
Record Env := {
  util_HostClientset : option rest_Config -> Clientset + error;
  util_ClusterClientset : rest_Config -> option Clientset * option error;
  genericclient_New : option rest_Config -> Client + error;
  util_ClusterServiceAccountName : string -> string -> string;
  util_RoleName : string -> string;
  util_HealthCheckRoleName : string -> string -> string;
  server_Delete : Trace -> Request -> option error;
  server_GetNamespace : Trace -> Request -> Namespace + error;
  server_GetKubefedCluster : Trace -> Request -> KubefedCluster + error
}.

(** [util.FedConfig]: an interface with two methods, each returning a Go
    pair (config, error). *)
Record FedConfig := {
  HostConfig : string -> string -> option rest_Config * option error;
  ClusterConfig : string -> string -> option rest_Config * option error
}.

(** ** The trace monad *)

Definition M (A : Type) : Type := Trace -> A * Trace.

Definition ret {A} (a : A) : M A := fun tr => (a, tr).

Definition bind {A B} (m : M A) (k : A -> M B) : M B :=
  fun tr => k (m tr).1 (m tr).2.

Declare Scope go_scope.
Delimit Scope go_scope with go.
Notation "x <- m ;; k" := (bind m (fun x => k))
  (at level 100, m at next level, right associativity) : go_scope.
Notation "m ;;; k" := (bind m (fun _ => k))
  (at level 100, right associativity) : go_scope.
Open Scope go_scope.

Definition enter (f : Fn) : M unit := fun tr => (tt, tr ++ [Enter f]).

(** [for _, x := range l { s = body x s }] *)
Fixpoint forRange {A S} (l : list A) (body : A -> S -> M S) (s : S) : M S :=
  match l with
  | [] => ret s
  | x :: l' => s' <- body x s ;; forRange l' body s'
  end.

Definition sumErr {A} (x : A + error) : option error :=
  match x with inl _ => None | inr e => Some e end.

Section Requests.
Context (env : Env).

(** [clientset.<Kind>(namespace).Delete(name, &metav1.DeleteOptions{})] *)
Definition Delete (server : string) (k : Kind) (namespace name : string)
  : M (option error) :=
  fun tr =>
    let r := Build_Request server DELETE k namespace name in
    let o := server_Delete env tr r in
    (o, tr ++ [Api r o]).

(** [clientset.CoreV1().Namespaces().Get(name, metav1.GetOptions{})] *)
Definition GetNamespace (server : string) (name : string)
  : M (Namespace + error) :=
  fun tr =>
    let r := Build_Request server GET Namespaces "" name in
    let o := server_GetNamespace env tr r in
    (o, tr ++ [Api r (sumErr o)]).

(** [client.Get(context.TODO(), fedCluster, namespace, name)] *)
Definition GetKubefedCluster (server : string) (namespace name : string)
  : M (KubefedCluster + error) :=
  fun tr =>
    let r := Build_Request server GET KubefedClusters namespace name in
    let o := server_GetKubefedCluster env tr r in
    (o, tr ++ [Api r (sumErr o)]).
End Requests.

(** ** pkg/kubefedctl/options *)

Module options.

Record GlobalSubcommandOptions := {
  HostClusterContext : string;
  KubefedNamespace : string;
  Kubeconfig : string;
  DryRun : bool
}.

Record CommonJoinOptions := {
  ClusterName : string;
  ClusterContext : string;
  HostClusterName : string
}.

(** [SetName]: the first positional argument becomes the cluster name. *)
Definition SetName (o : CommonJoinOptions) (args : list string)
  : option error * CommonJoinOptions :=
  match args with
  | [] => (Some (New "NAME is required"), o)
  | a :: _ =>
      (None, {| ClusterName := a;
                ClusterContext := ClusterContext o;
                HostClusterName := HostClusterName o |})
  end.

End options.

(** ** Go's [strings] package, the part used here *)

Module strings.

(** [strings.ContainsAny(s, chars)]: some byte of [chars] occurs in [s].
    For the ASCII set [":/"] used below the byte-wise search is exact
    also on UTF-8 input. *)
Definition ContainsAny (s chars : string) : bool :=
  existsb (fun c => existsb (Ascii.eqb c) (list_ascii_of_string chars))
          (list_ascii_of_string s).

(** A string between double quotes (the quote is byte 34). *)
Definition quoted (s : string) : string :=
  let q := String (ascii_of_nat 34) EmptyString in q +:+ s +:+ q.

End strings.

(** ** pkg/kubefedctl/unjoin.go *)

Module kubefedctl.
Import options.
Import strings.

Record unjoinFederation := {
  Global : GlobalSubcommandOptions;
  Common : CommonJoinOptions;
  forceDeletion : bool
}.

Definition withCommon (j : unjoinFederation) (c : CommonJoinOptions)
  : unjoinFederation :=
  {| Global := Global j; Common := c; forceDeletion := forceDeletion j |}.

Definition withClusterContext (c : CommonJoinOptions) (ctx : string)
  : CommonJoinOptions :=
  {| ClusterName := ClusterName c;
     ClusterContext := ctx;
     HostClusterName := HostClusterName c |}.

(** [Complete] ensures that options are valid and marshals them if
    necessary.  It returns the error together with the receiver as the
    call leaves it. *)
Definition Complete (j : unjoinFederation) (args : list string)
  : option error * unjoinFederation :=
  let '(err, c) := SetName (Common j) args in
  if notNil err then (err, withCommon j c) else
  let c := if bool_decide (ClusterContext c = "")
           then withClusterContext c (ClusterName c) else c in
  let j := withCommon j c in
  if bool_decide (HostClusterName c <> "")
     && strings.ContainsAny (HostClusterName c) ":/"
  then (Some (New ("host-cluster-name may not contain " +:+ quoted "/"
                     +:+ " or " +:+ quoted ":")), j)
  else
  if bool_decide (HostClusterName c = "")
     && strings.ContainsAny (HostClusterContext (Global j)) ":/"
  then (Some (New ("host-cluster-name must be set if the name of the host cluster context contains one of "
                     +:+ quoted ":" +:+ " or " +:+ quoted "/")), j)
  else (None, j).

Section WithEnv.
Context (env : Env).

(** [deleteServiceAccount] deletes the service account the host cluster
    uses to reach the member's API server. *)
Definition deleteServiceAccount (clusterClientset : Clientset)
    (saName namespace : string) (dryRun : bool) : M (option error) :=
  enter fn_deleteServiceAccount ;;;
  if dryRun then ret None else
  Delete env (cs_server clusterClientset) ServiceAccounts namespace saName.

(** [deleteClusterRoleAndBinding] deletes the RBAC roles and bindings
    created by join. *)
Definition deleteClusterRoleAndBinding (clusterClientset : Clientset)
    (saName namespace : string) (dryRun : bool) : M bool :=
  enter fn_deleteClusterRoleAndBinding ;;;
  let deletionSucceeded := true in
  if dryRun then ret deletionSucceeded else
  let roleName := util_RoleName env saName in
  let healthCheckRoleName := util_HealthCheckRoleName env saName namespace in
  let server := cs_server clusterClientset in
  deletionSucceeded <-
    forRange [roleName; healthCheckRoleName]
      (fun name deletionSucceeded =>
         err <- Delete env server ClusterRoleBindings "" name ;;
         let deletionSucceeded :=
           if notNil err && negb (IsNotFound err) then false
           else deletionSucceeded in
         err <- Delete env server ClusterRoles "" name ;;
         let deletionSucceeded :=
           if notNil err && negb (IsNotFound err) then false
           else deletionSucceeded in
         ret deletionSucceeded)
      deletionSucceeded ;;
  err <- Delete env server RoleBindings namespace roleName ;;
  let deletionSucceeded :=
    if notNil err && negb (IsNotFound err) then false
    else deletionSucceeded in
  err <- Delete env server Roles namespace roleName ;;
  let deletionSucceeded :=
    if notNil err && negb (IsNotFound err) then false
    else deletionSucceeded in
  ret deletionSucceeded.

(** [deleteRBACResources] deletes the cluster role, cluster role
    bindings and service account from the unjoining cluster. *)
Definition deleteRBACResources (unjoiningClusterClientset : Clientset)
    (namespace unjoiningClusterName hostClusterName : string)
    (dryRun : bool) : M bool :=
  enter fn_deleteRBACResources ;;;
  let saName :=
    util_ClusterServiceAccountName env unjoiningClusterName hostClusterName in
  deletionSucceeded <-
    deleteClusterRoleAndBinding unjoiningClusterClientset saName namespace dryRun ;;
  err <- deleteServiceAccount unjoiningClusterClientset saName namespace dryRun ;;
  let deletionSucceeded :=
    if notNil err then false else deletionSucceeded in
  ret deletionSucceeded.

(** [deleteFedNSFromUnjoinCluster] deletes the kubefed namespace from
    the unjoining cluster so long as the unjoining cluster is not the
    host cluster. *)
Definition deleteFedNSFromUnjoinCluster
    (hostClientset unjoiningClusterClientset : Clientset)
    (kubefedNamespace unjoiningClusterName : string) (dryRun : bool)
  : M (option error) :=
  enter fn_deleteFedNSFromUnjoinCluster ;;;
  if dryRun then ret None else
  got <- GetNamespace env (cs_server hostClientset) kubefedNamespace ;;
  match got with
  | inr err =>
      ret (Some (Wrapf err "Error retrieving namespace %q from host cluster"
                   [kubefedNamespace]))
  | inl hostClusterNamespace =>
  got <- GetNamespace env (cs_server unjoiningClusterClientset) kubefedNamespace ;;
  match got with
  | inr err =>
      ret (Some (Wrapf err
                   "Error retrieving namespace %q from unjoining cluster %q"
                   [kubefedNamespace; unjoiningClusterName]))
  | inl unjoiningClusterNamespace =>
  enter fn_IsPrimaryCluster ;;;
  if IsPrimaryCluster hostClusterNamespace unjoiningClusterNamespace
  then ret None else
  err <- Delete env (cs_server unjoiningClusterClientset)
                Namespaces "" kubefedNamespace ;;
  if IsNotFound err then ret None else
  match err with
  | Some e =>
      ret (Some (Wrapf e
                   "Could not delete kubefed namespace %q from unjoining cluster %q"
                   [kubefedNamespace; unjoiningClusterName]))
  | None => ret None
  end
  end
  end.

(** [deleteKubefedClusterAndSecret] deletes a federated cluster
    resource that associates the cluster and secret. *)
Definition deleteKubefedClusterAndSecret (hostClientset : Clientset)
    (client : Client) (kubefedNamespace unjoiningClusterName : string)
    (dryRun : bool) : M unit :=
  enter fn_deleteKubefedClusterAndSecret ;;;
  if dryRun then ret tt else
  got <- GetKubefedCluster env (gc_server client)
                           kubefedNamespace unjoiningClusterName ;;
  match got with
  | inr _ => ret tt
  | inl fedCluster =>
      Delete env (cs_server hostClientset) Secrets kubefedNamespace
             (kc_Spec_SecretRef_Name fedCluster) ;;;
      Delete env (gc_server client) KubefedClusters
             (kc_Namespace fedCluster) (kc_Name fedCluster) ;;;
      ret tt
  end.

(** [UnjoinCluster] performs all the necessary steps to unjoin a
    cluster from the federation. *)
Definition UnjoinCluster (hostConfig clusterConfig : option rest_Config)
    (kubefedNamespace hostClusterName hostClusterContext
     unjoiningClusterContext unjoiningClusterName : string)
    (forceDeletion dryRun : bool) : M (option error) :=
  match util_HostClientset env hostConfig with
  | inr err => ret (Some err)
  | inl hostClientset =>
  let built :=
    match clusterConfig with
    | Some cfg => util_ClusterClientset env cfg
    | None => (None, None)
    end in
  let clusterClientset := built.1 in
  if notNil built.2 && negb forceDeletion then ret built.2 else
  match genericclient_New env hostConfig with
  | inr err => ret (Some err)
  | inl client =>
  deletionSucceeded <-
    match clusterClientset with
    | Some clusterClientset =>
        deletionSucceeded <-
          deleteRBACResources clusterClientset kubefedNamespace
                              unjoiningClusterName hostClusterName dryRun ;;
        err <- deleteFedNSFromUnjoinCluster hostClientset clusterClientset
                 kubefedNamespace unjoiningClusterName dryRun ;;
        ret (if notNil err then false else deletionSucceeded)
    | None => ret false
    end ;;
  (if deletionSucceeded || forceDeletion
   then deleteKubefedClusterAndSecret hostClientset client
          kubefedNamespace unjoiningClusterName dryRun
   else ret tt) ;;;
  ret None
  end
  end.

(** [Run] is the implementation of the `unjoin federation` command. *)
Definition Run (j : unjoinFederation) (config : FedConfig)
  : M (option error) :=
  let g := Global j in
  let c := Common j in
  let got := HostConfig config (HostClusterContext g) (Kubeconfig g) in
  let hostConfig := got.1 in
  if notNil got.2 then ret got.2 else
  let got := ClusterConfig config (ClusterContext c) (Kubeconfig g) in
  let clusterConfig := got.1 in
  if notNil got.2 && negb (forceDeletion j) then ret got.2 else
  let hostClusterName :=
    if bool_decide (HostClusterName c <> "") then HostClusterName c
    else HostClusterContext g in
  UnjoinCluster hostConfig clusterConfig (KubefedNamespace g)
    hostClusterName (HostClusterContext g) (ClusterContext c)
    (ClusterName c) (forceDeletion j) (DryRun g).

(** How the process ends: [klog.Fatalf] exits with a non-zero status. *)
Inductive Exit := Exit0 | Fatal (err : error).

(** The [Run] closure of the cobra command built by [NewCmdUnjoin]. *)
Definition NewCmdUnjoin_Run (opts : unjoinFederation) (config : FedConfig)
    (args : list string) : M Exit :=
  let '(err, opts) := Complete opts args in
  match err with
  | Some e => ret (Fatal e)
  | None =>
      err <- Run opts config ;;
      match err with
      | Some e => ret (Fatal e)
      | None => ret Exit0
      end
  end.

End WithEnv.
End kubefedctl.


(** ** pkg/controller/kubefedcluster/clusterclient.go *)

Module kubefedcluster.

Definition LabelZoneFailureDomain : string :=
  "failure-domain.beta.kubernetes.io/zone".
Definition LabelZoneRegion : string :=
  "failure-domain.beta.kubernetes.io/region".

(** [fedcommon.ClusterConditionType] and [corev1.ConditionStatus]. *)
Inductive ClusterConditionType := ClusterReady | ClusterOffline.
Inductive ConditionStatus := ConditionTrue | ConditionFalse | ConditionUnknown.

(** [metav1.Time], as a number of ticks of the clock. *)
Definition Time := Z.

Record ClusterCondition := {
  Type_ : ClusterConditionType;
  Status : ConditionStatus;
  Reason : string;
  Message : string;
  LastProbeTime : Time;
  LastTransitionTime : Time
}.

Record KubeFedClusterStatus := {
  Conditions : list ClusterCondition;
  Zones : list string;
  Region : option string
}.

(** [corev1.Node], the part read here: its labels. *)
Record Node := { Labels : gmap string string }.

(** The member cluster as the client sees it: the raw answer to a GET of
    an absolute path, and the answer to a listing of the nodes. *)
Record KubeClient := {
  Get_AbsPath_Do_Raw : string -> string * option error;
  Nodes_List : list Node * option error
}.

Record ClusterClient := {
  kubeClient : KubeClient;
  clusterName : string
}.

(** [sets.String] of apimachinery: a set of strings; [List] returns its
    members in increasing (byte-wise) order. *)
Definition string_le (s t : string) : Prop := String.leb s t = true.

#[global] Instance string_le_dec s t : Decision (string_le s t).
Proof. unfold string_le. apply _. Defined.

Definition sets_List (s : gset string) : list string :=
  merge_sort string_le (elements s).

(** [for key, value := range labels { if key == want { return value } }
     return ""] over one enumeration of the map. *)
Fixpoint rangeFind (want : string) (kvs : list (string * string)) : string :=
  match kvs with
  | [] => ""
  | (key, value) :: rest =>
      if bool_decide (key = want) then value else rangeFind want rest
  end.

(** Find the name of the zone in which a Node is running. *)
Definition getZoneNameForNode (node : Node) : string :=
  rangeFind LabelZoneFailureDomain (map_to_list (Labels node)).

(** Find the name of the region in which a Node is running. *)
Definition getRegionNameForNode (node : Node) : string :=
  rangeFind LabelZoneRegion (map_to_list (Labels node)).

(** The loop of [GetClusterZones]: [i] is the index of the node at the
    head of [items]. *)
Fixpoint zonesLoop (i : nat) (items : list Node)
    (zones : gset string) (region : string) : gset string * string :=
  match items with
  | [] => (zones, region)
  | node :: rest =>
      let zone := getZoneNameForNode node in
      let region := if bool_decide (i = 0%nat)
                    then getRegionNameForNode node else region in
      let zones :=
        if bool_decide (zone <> "") && negb (bool_decide (zone ∈ zones))
        then {[zone]} ∪ zones else zones in
      zonesLoop (S i) rest zones region
  end.

(** [GetClusterZones] gets the kubernetes cluster zones and region by
    inspecting labels on nodes in the cluster. *)
Definition GetClusterZones (self : ClusterClient)
  : list string * string * option error :=
  let '(nodes, err) := Nodes_List (kubeClient self) in
  match err with
  | Some e => ([], "", Some e)
  | None =>
      let '(zones, region) := zonesLoop 0 nodes ∅ "" in
      (sets_List zones, region, None)
  end.

Section Health.
(** [strings.EqualFold] of Go's standard library: equality under simple
    Unicode case folding. *)
Variable strings_EqualFold : string -> string -> bool.

(** [GetClusterHealthStatus] gets the kubernetes cluster health status by
    requesting "/healthz"; [currentTime] is what [metav1.Now()] returns. *)
Definition GetClusterHealthStatus (self : ClusterClient) (currentTime : Time)
  : KubeFedClusterStatus :=
  let clusterStatus := {| Conditions := []; Zones := []; Region := None |} in
  let newClusterReadyCondition :=
    {| Type_ := ClusterReady; Status := ConditionTrue;
       Reason := "ClusterReady"; Message := "/healthz responded with ok";
       LastProbeTime := currentTime; LastTransitionTime := currentTime |} in
  let newClusterNotReadyCondition :=
    {| Type_ := ClusterReady; Status := ConditionFalse;
       Reason := "ClusterNotReady"; Message := "/healthz responded without ok";
       LastProbeTime := currentTime; LastTransitionTime := currentTime |} in
  let newClusterOfflineCondition :=
    {| Type_ := ClusterOffline; Status := ConditionTrue;
       Reason := "ClusterNotReachable"; Message := "cluster is not reachable";
       LastProbeTime := currentTime; LastTransitionTime := currentTime |} in
  let newClusterNotOfflineCondition :=
    {| Type_ := ClusterOffline; Status := ConditionFalse;
       Reason := "ClusterReachable"; Message := "cluster is reachable";
       LastProbeTime := currentTime; LastTransitionTime := currentTime |} in
  let '(body, err) := Get_AbsPath_Do_Raw (kubeClient self) "/healthz" in
  let withConditions cs :=
    {| Conditions := Conditions clusterStatus ++ cs;
       Zones := Zones clusterStatus; Region := Region clusterStatus |} in
  if notNil err then withConditions [newClusterOfflineCondition]
  else if negb (strings_EqualFold body "ok")
  then withConditions [newClusterNotReadyCondition; newClusterNotOfflineCondition]
  else withConditions [newClusterReadyCondition].

End Health.

(** The ASCII fragment of [strings.EqualFold]: byte-wise equality up to the
    case of the letters A-Z. *)
Definition lower (c : ascii) : ascii :=
  let n := nat_of_ascii c in
  if (65 <=? n)%nat && (n <=? 90)%nat then ascii_of_nat (n + 32) else c.

Fixpoint EqualFold_ascii (s t : string) : bool :=
  match s, t with
  | EmptyString, EmptyString => true
  | String a s', String b t' =>
      Ascii.eqb (lower a) (lower b) && EqualFold_ascii s' t'
  | _, _ => false
  end.

End kubefedcluster.


(** ** pkg/controller/kubefedcluster/clusterclient.go: [NewClusterClientSet] *)

Module clusterclient.
Import kubefedcluster.

Definition UserAgentName : string := "Cluster-Controller".

(** [*restclient.Config], the fields this function writes or passes on;
    [time.Duration] is a number of nanoseconds. *)
Record Config := {
  Host : string;
  UserAgent : string;
  Timeout : Z
}.

(** [fedv1b1.KubeFedCluster]: the function reads its name and hands the
    whole object to [util.BuildClusterConfig]. *)
Record KubeFedCluster := {
  Name : string;
  Spec_APIEndpoint : string;
  Spec_SecretRef_Name : string
}.

(** What a Go call ends in: a return, or a run-time panic. *)
Inductive Outcome (A : Type) :=
| Returns (a : A)
| Panics.
Arguments Returns {A} a.
Arguments Panics {A}.

(** The callees outside this file: [util.BuildClusterConfig] (a Go pair),
    [restclient.AddUserAgent], and [kubeclientset.NewForConfigOrDie], which
    returns a client pointer or panics. *)
Record Lib := {
  util_BuildClusterConfig :
    KubeFedCluster -> Client -> string -> option Config * option error;
  restclient_AddUserAgent : Config -> string -> Config;
  kubeclientset_NewForConfigOrDie : Config -> Outcome (option KubeClient)
}.

(** The [ClusterClient] struct with its client pointer, which is nil until
    it is assigned. *)
Record ClusterClientValue := {
  cc_kubeClient : option KubeClient;
  cc_clusterName : string
}.

(** The client as the probes of [kubefedcluster] use it: they dereference
    [kubeClient]. *)
Definition usable (cc : ClusterClientValue) : option ClusterClient :=
  match cc_kubeClient cc with
  | Some k => Some {| kubeClient := k; clusterName := cc_clusterName cc |}
  | None => None
  end.

(** [NewClusterClientSet] returns a ClusterClient for the given
    KubeFedCluster.  The assignment to [clusterConfig.Timeout] dereferences
    the pointer: on a nil pointer it panics. *)
Definition NewClusterClientSet (lib : Lib) (c : KubeFedCluster)
    (client : Client) (fedNamespace : string) (timeout : Z)
  : Outcome (option ClusterClientValue * option error) :=
  let '(clusterConfig, err) := util_BuildClusterConfig lib c client fedNamespace in
  match err with
  | Some e => Returns (None, Some e)
  | None =>
  match clusterConfig with
  | None => Panics
  | Some cfg =>
  let clusterConfig :=
    Some {| Host := Host cfg; UserAgent := UserAgent cfg; Timeout := timeout |} in
  let clusterClientSet := {| cc_kubeClient := None; cc_clusterName := Name c |} in
  match clusterConfig with
  | Some cfg =>
      match kubeclientset_NewForConfigOrDie lib
              (restclient_AddUserAgent lib cfg UserAgentName) with
      | Panics => Panics
      | Returns kubeClient =>
          let clusterClientSet :=
            {| cc_kubeClient := kubeClient;
               cc_clusterName := cc_clusterName clusterClientSet |} in
          match cc_kubeClient clusterClientSet with
          | None => Returns (None, None)
          | Some _ => Returns (Some clusterClientSet, None)
          end
      end
  | None => Returns (Some clusterClientSet, None)
  end
  end
  end.

End clusterclient.

(** ** pkg/controller/util/managedlabel.go *)

Module managedlabel.

Definition ManagedByKubeFedLabelKey : string := "kubefed.k8s.io/managed".
Definition ManagedByKubeFedLabelValue : string := "true".

(** [*unstructured.Unstructured], as far as this file reads and writes it:
    the label map of the object, nil when it has none.  [GetLabels] hands
    out a copy of the map and [SetLabels] stores the map it is given. *)
Record Unstructured := { metadata_labels : option (gmap string string) }.

Definition GetLabels (obj : Unstructured) : option (gmap string string) :=
  metadata_labels obj.

Definition SetLabels (obj : Unstructured) (labels : gmap string string)
  : Unstructured :=
  {| metadata_labels := Some labels |}.

(** [labels[key]] on a Go map: the zero value when the key is absent. *)
Definition index (labels : gmap string string) (key : string) : string :=
  default "" (labels !! key).

(** [HasManagedLabel] indicates whether the given object has the managed
    label. *)
Definition HasManagedLabel (obj : Unstructured) : bool :=
  match GetLabels obj with
  | None => false
  | Some labels =>
      bool_decide (index labels ManagedByKubeFedLabelKey = ManagedByKubeFedLabelValue)
  end.

(** [AddManagedLabel] ensures that the given object has the managed label;
    the object after the call is returned. *)
Definition AddManagedLabel (obj : Unstructured) : Unstructured :=
  let labels := GetLabels obj in
  let labels := match labels with
                | None => ∅
                | Some labels => labels
                end in
  let labels := <[ManagedByKubeFedLabelKey := ManagedByKubeFedLabelValue]> labels in
  SetLabels obj labels.

(** [RemoveManagedLabel] ensures that the given object does not have the
    managed label. *)
Definition RemoveManagedLabel (obj : Unstructured) : Unstructured :=
  match GetLabels obj with
  | None => obj
  | Some labels =>
      if bool_decide (index labels ManagedByKubeFedLabelKey <> ManagedByKubeFedLabelValue)
      then obj
      else SetLabels obj (delete ManagedByKubeFedLabelKey labels)
  end.

(** [CheckManagedLabel] checks if the given object has the managed:false
    label. *)
Definition CheckManagedLabel (obj : Unstructured) : bool :=
  match GetLabels obj with
  | None => false
  | Some labels => bool_decide (index labels ManagedByKubeFedLabelKey = "false")
  end.

End managedlabel.


(** * Specification side *)

Import options kubefedctl.

(** ** Reading a trace *)

(** A delete that does not fail the role and binding teardown: it
    succeeded, or the object was already absent. *)
Definition tolerated (o : option error) : bool :=
  negb (notNil o) || IsNotFound o.

(** The requests of a trace, in the order they were issued. *)
Fixpoint requestsOf (tr : Trace) : list Request :=
  match tr with
  | [] => []
  | Api r _ :: tr' => r :: requestsOf tr'
  | Enter _ :: tr' => requestsOf tr'
  end.

(** Events of the member-side teardown: they neither enter the host-side
    deregistration nor touch a secret or a registration record. *)
Definition teardownEvent (ev : Event) : Prop :=
  match ev with
  | Enter f => f <> fn_deleteKubefedClusterAndSecret
  | Api r _ => r_kind r <> Secrets /\ r_kind r <> KubefedClusters
  end.

(** Events that are no request at all. *)
Definition silentEvent (ev : Event) : Prop :=
  match ev with
  | Enter _ => True
  | Api _ _ => False
  end.

(** The six role and binding deletions of [deleteClusterRoleAndBinding]
    and the service-account deletion, as requests. *)
Definition rbacRequests (env : Env) (cs : Clientset)
    (namespace unjoiningClusterName hostClusterName : string) : list Request :=
  let saName := util_ClusterServiceAccountName env unjoiningClusterName hostClusterName in
  let roleName := util_RoleName env saName in
  let healthCheckRoleName := util_HealthCheckRoleName env saName namespace in
  let del k ns n := Build_Request (cs_server cs) DELETE k ns n in
  [ del ClusterRoleBindings "" roleName;
    del ClusterRoles "" roleName;
    del ClusterRoleBindings "" healthCheckRoleName;
    del ClusterRoles "" healthCheckRoleName;
    del RoleBindings namespace roleName;
    del Roles namespace roleName;
    del ServiceAccounts namespace saName ].

(** What building the member client yields inside [UnjoinCluster]. *)
Definition memberBuild (env : Env) (clusterConfig : option rest_Config)
  : option Clientset * option error :=
  match clusterConfig with
  | Some cfg => util_ClusterClientset env cfg
  | None => (None, None)
  end.

(** The member client cannot be built: its configuration does not load,
    or the clientset cannot be made from it. *)
Definition memberClientFails (env : Env) (config : FedConfig)
    (j : unjoinFederation) (e : error) : Prop :=
  let got := ClusterConfig config (ClusterContext (Common j))
                           (Kubeconfig (Global j)) in
  got = (None, Some e)
  \/ exists cfg, got = (Some cfg, None)
                 /\ util_ClusterClientset env cfg = (None, Some e).

(** ** A small logic of traces

    [spec m Q]: from any history, [m] only appends events, and its result
    and the appended events satisfy [Q]. *)
Definition spec {A} (m : M A) (Q : A -> list Event -> Prop) : Prop :=
  forall tr, exists evs, (m tr).2 = tr ++ evs /\ Q (m tr).1 evs.

(** [emits P m]: every event [m] appends satisfies [P]. *)
Definition emits {A} (P : Event -> Prop) (m : M A) : Prop :=
  spec m (fun _ evs => Forall P evs).

(** ** Example environments *)

Module Example.

Definition hostServer : string := "https://host:6443".
Definition memberServer : string := "https://member:6443".
Definition hostCfg : rest_Config := {| cfg_Host := hostServer |}.
Definition memberCfg : rest_Config := {| cfg_Host := memberServer |}.
Definition hostCS : Clientset := {| cs_server := hostServer |}.
Definition memberCS : Clientset := {| cs_server := memberServer |}.
Definition hostClient : Client := {| gc_server := hostServer |}.

Definition notFound : error := StatusError StatusReasonNotFound "not found".
Definition forbidden : error := StatusError StatusReasonForbidden "forbidden".
Definition unreachable : error := New "dial tcp: connection refused".

Definition fedNS : string := "kube-federation-system".

(** Each cluster has a namespace object of its own. *)
Definition nsOf (r : Request) : Namespace :=
  {| ns_Name := r_name r; ns_UID := "uid-of-" +:+ r_server r |}.

Definition registration : KubefedCluster :=
  {| kc_Namespace := fedNS; kc_Name := "cluster2";
     kc_Spec_SecretRef_Name := "cluster2-secret" |}.

(** An environment whose clients build, with the given answers to deletes
    and to namespace lookups. *)
Definition mkEnv (del : Request -> option error)
    (getNS : Request -> Namespace + error) : Env :=
  {| util_HostClientset := fun _ => inl hostCS;
     util_ClusterClientset := fun _ => (Some memberCS, None);
     genericclient_New := fun _ => inl hostClient;
     util_ClusterServiceAccountName := fun j h => j +:+ "-" +:+ h;
     util_RoleName := fun sa => "kubefed-controller-manager:" +:+ sa;
     util_HealthCheckRoleName := fun sa ns =>
       "kubefed-controller-manager:" +:+ ns +:+ ":healthcheck-" +:+ sa;
     server_Delete := fun _ r => del r;
     server_GetNamespace := fun _ r => getNS r;
     server_GetKubefedCluster := fun _ _ => inl registration |}.

(** First unjoin of a healthy member: everything is there and goes. *)
Definition envHealthy : Env := mkEnv (fun _ => None) (fun r => inl (nsOf r)).

(** Unjoin run again after a teardown of the role bindings, roles and
    service account: every delete on the member answers NotFound. *)
Definition envGone : Env :=
  mkEnv (fun r => if bool_decide (r_server r = memberServer)
                  then Some notFound else None)
        (fun r => inl (nsOf r)).

(** The kubefed namespace is already absent on the member. *)
Definition envNoMemberNS : Env :=
  mkEnv (fun _ => None)
        (fun r => if bool_decide (r_server r = memberServer)
                  then inr notFound else inl (nsOf r)).

(** The member refuses every delete. *)
Definition envForbidden : Env :=
  mkEnv (fun r => if bool_decide (r_server r = memberServer)
                  then Some forbidden else None)
        (fun r => inl (nsOf r)).

(** The member client cannot be built from its configuration. *)
Definition envNoMemberClient : Env :=
  {| util_HostClientset := util_HostClientset envHealthy;
     util_ClusterClientset := fun _ => (None, Some unreachable);
     genericclient_New := genericclient_New envHealthy;
     util_ClusterServiceAccountName := util_ClusterServiceAccountName envHealthy;
     util_RoleName := util_RoleName envHealthy;
     util_HealthCheckRoleName := util_HealthCheckRoleName envHealthy;
     server_Delete := server_Delete envHealthy;
     server_GetNamespace := server_GetNamespace envHealthy;
     server_GetKubefedCluster := server_GetKubefedCluster envHealthy |}.

(** A kubeconfig in which both contexts resolve. *)
Definition kubeconfig : FedConfig :=
  {| HostConfig := fun _ _ => (Some hostCfg, None);
     ClusterConfig := fun _ _ => (Some memberCfg, None) |}.

(** A kubeconfig in which the member context does not resolve. *)
Definition kubeconfigNoMember : FedConfig :=
  {| HostConfig := fun _ _ => (Some hostCfg, None);
     ClusterConfig := fun _ _ => (None, Some unreachable) |}.

(** [kubefedctl unjoin cluster2 --host-cluster-context=cluster1], with the
    given [--force] and [--dry-run]. *)
Definition unjoinOpts (force dryRun : bool) : unjoinFederation :=
  {| Global := {| HostClusterContext := "cluster1";
                  KubefedNamespace := fedNS;
                  Kubeconfig := "";
                  DryRun := dryRun |};
     Common := {| ClusterName := "cluster2";
                  ClusterContext := "cluster2";
                  HostClusterName := "" |};
     forceDeletion := force |}.

(** [UnjoinCluster] for cluster2 from host cluster1. *)
Definition unjoin (env : Env) (force dryRun : bool) : option error * Trace :=
  UnjoinCluster env (Some hostCfg) (Some memberCfg) fedNS
    "cluster1" "cluster1" "cluster2" "cluster2" force dryRun [].

(** Three nodes, in listing order: zones a, a, b and regions r1, r2, r2. *)
Definition node (zone region : string) : kubefedcluster.Node :=
  {| kubefedcluster.Labels :=
       <[kubefedcluster.LabelZoneFailureDomain := zone]>
         (<[kubefedcluster.LabelZoneRegion := region]>
            ({["kubernetes.io/os" := "linux"]})) |}.

Definition threeNodes : list kubefedcluster.Node :=
  [node "a" "r1"; node "a" "r2"; node "b" "r2"].

(** A member that answers the probe with [body] or fails it with [err],
    and lists [nodes]. *)
Definition member (body : string) (err : option error)
    (nodes : list kubefedcluster.Node) : kubefedcluster.ClusterClient :=
  {| kubefedcluster.kubeClient :=
       {| kubefedcluster.Get_AbsPath_Do_Raw := fun _ => (body, err);
          kubefedcluster.Nodes_List := (nodes, None) |};
     kubefedcluster.clusterName := "cluster2" |}.

End Example.


(** Further example inputs. *)

Module MoreExamples.
Import Example.

(** The member being unjoined is the host itself: both lookups return the
    same namespace object. *)
Definition envPrimary : Env :=
  mkEnv (fun _ => None)
        (fun r => inl {| ns_Name := r_name r; ns_UID := "uid-of-host" |}).

(** The host clientset cannot be built. *)
Definition envNoHost : Env :=
  {| util_HostClientset := fun _ => inr unreachable;
     util_ClusterClientset := util_ClusterClientset envHealthy;
     genericclient_New := genericclient_New envHealthy;
     util_ClusterServiceAccountName := util_ClusterServiceAccountName envHealthy;
     util_RoleName := util_RoleName envHealthy;
     util_HealthCheckRoleName := util_HealthCheckRoleName envHealthy;
     server_Delete := server_Delete envHealthy;
     server_GetNamespace := server_GetNamespace envHealthy;
     server_GetKubefedCluster := server_GetKubefedCluster envHealthy |}.

(** The host refuses to show the kubefed namespace. *)
Definition envNoHostNS : Env :=
  mkEnv (fun _ => None)
        (fun r => if bool_decide (r_server r = hostServer)
                  then inr forbidden else inl (nsOf r)).

(** The three nodes listed the other way round. *)
Definition threeNodesReversed : list kubefedcluster.Node :=
  [node "b" "r2"; node "a" "r2"; node "a" "r1"].

(** Objects with labels: a managed one, one opted out, one without the
    key, and one without labels. *)
Definition labelled (labels : list (string * string)) : managedlabel.Unstructured :=
  {| managedlabel.metadata_labels := Some (list_to_map labels) |}.

Definition managedObj : managedlabel.Unstructured :=
  labelled [("app", "web"); ("kubefed.k8s.io/managed", "true")].
Definition optedOutObj : managedlabel.Unstructured :=
  labelled [("app", "web"); ("kubefed.k8s.io/managed", "false")].
Definition plainObj : managedlabel.Unstructured := labelled [("app", "web")].
Definition bareObj : managedlabel.Unstructured :=
  {| managedlabel.metadata_labels := None |}.

(** A library in which the cluster configuration is built and the client
    is made from it, and one in which the configuration comes back nil
    without an error. *)
Definition someKubeClient : kubefedcluster.KubeClient :=
  {| kubefedcluster.Get_AbsPath_Do_Raw := fun _ => ("ok", None);
     kubefedcluster.Nodes_List := (threeNodes, None) |}.

Definition libGood : clusterclient.Lib :=
  {| clusterclient.util_BuildClusterConfig := fun c _ _ =>
       (Some {| clusterclient.Host := clusterclient.Spec_APIEndpoint c;
                clusterclient.UserAgent := "";
                clusterclient.Timeout := 0 |}, None);
     clusterclient.restclient_AddUserAgent := fun cfg ua =>
       {| clusterclient.Host := clusterclient.Host cfg;
          clusterclient.UserAgent := "kubefed/" +:+ ua;
          clusterclient.Timeout := clusterclient.Timeout cfg |};
     clusterclient.kubeclientset_NewForConfigOrDie := fun _ =>
       clusterclient.Returns (Some someKubeClient) |}.

Definition libNilConfig : clusterclient.Lib :=
  {| clusterclient.util_BuildClusterConfig := fun _ _ _ => (None, None);
     clusterclient.restclient_AddUserAgent :=
       clusterclient.restclient_AddUserAgent libGood;
     clusterclient.kubeclientset_NewForConfigOrDie :=
       clusterclient.kubeclientset_NewForConfigOrDie libGood |}.

Definition cluster2 : clusterclient.KubeFedCluster :=
  {| clusterclient.Name := "cluster2";
     clusterclient.Spec_APIEndpoint := memberServer;
     clusterclient.Spec_SecretRef_Name := "cluster2-secret" |}.

End MoreExamples.


(** * Proofs *)

(** ** Rules of the trace logic *)

Section TraceLogic.
Context (env : Env).

Lemma spec_ret {A} (a : A) (Q : A -> list Event -> Prop) :
  Q a [] -> spec (ret a) Q.
Proof. intros HQ tr. exists []. by rewrite app_nil_r. Qed.

Lemma spec_bind {A B} (m : M A) (k : A -> M B) Q1 (Q : B -> list Event -> Prop) :
  spec m Q1 ->
  (forall a evs1, Q1 a evs1 -> spec (k a) (fun b evs2 => Q b (evs1 ++ evs2))) ->
  spec (bind m k) Q.
Proof.
  intros Hm Hk tr. unfold bind.
  destruct (Hm tr) as (evs1 & E1 & H1).
  destruct (Hk _ _ H1 (m tr).2) as (evs2 & E2 & H2).
  exists (evs1 ++ evs2). split; [|done].
  by rewrite E2, E1, app_assoc.
Qed.

Lemma spec_weaken {A} (m : M A) (Q Q' : A -> list Event -> Prop) :
  spec m Q -> (forall a evs, Q a evs -> Q' a evs) -> spec m Q'.
Proof.
  intros Hm HQ tr. destruct (Hm tr) as (evs & E & H). eauto.
Qed.

Lemma spec_enter f : spec (enter f) (fun _ evs => evs = [Enter f]).
Proof. intros tr. by exists [Enter f]. Qed.

Lemma spec_Delete server k ns n :
  spec (Delete env server k ns n)
       (fun o evs => evs = [Api (Build_Request server DELETE k ns n) o]).
Proof. intros tr. by eexists. Qed.

Lemma spec_GetNamespace server n :
  spec (GetNamespace env server n)
       (fun x evs => evs = [Api (Build_Request server GET Namespaces "" n) (sumErr x)]).
Proof. intros tr. by eexists. Qed.

Lemma spec_GetKubefedCluster server ns n :
  spec (GetKubefedCluster env server ns n)
       (fun x evs => evs = [Api (Build_Request server GET KubefedClusters ns n) (sumErr x)]).
Proof. intros tr. by eexists. Qed.

(** Binds nested on the left, and a bind after a [ret]. *)
Lemma spec_assoc {A B C} (m : M A) (k1 : A -> M B) (k2 : B -> M C) Q :
  spec (bind m (fun a => bind (k1 a) k2)) Q -> spec (bind (bind m k1) k2) Q.
Proof. intros H tr. exact (H tr). Qed.

Lemma spec_ret_bind {A B} (a : A) (k : A -> M B) Q :
  spec (k a) Q -> spec (bind (ret a) k) Q.
Proof. intros H tr. exact (H tr). Qed.

(** A run from the empty history. *)
Lemma spec_run {A} (m : M A) Q : spec m Q -> Q (m []).1 (m []).2.
Proof. intros H. destruct (H []) as (evs & -> & HQ). done. Qed.

(** Runs of an [emits] computation. *)
Lemma emits_run {A} P (m : M A) : emits P m -> Forall P (m []).2.
Proof. intros H. by apply spec_run in H. Qed.

Lemma emits_from {A} P (m : M A) tr :
  emits P m -> Forall P tr -> Forall P (m tr).2.
Proof.
  intros H Htr. destruct (H tr) as (evs & -> & Hevs). by apply Forall_app.
Qed.

End TraceLogic.

(** One step of a [spec] proof: split a bind with the rule of its first
    action, or finish at a [ret]. *)
Ltac spec_step :=
  repeat first [ apply spec_assoc | apply spec_ret_bind ];
  first
    [ apply spec_ret
    | eapply spec_bind;
      [ first [ apply spec_enter | apply spec_Delete
              | apply spec_GetNamespace | apply spec_GetKubefedCluster ]
      | cbv beta; intros ? ? -> ] ].

Tactic Notation "spec_step" "as" ident(x) :=
  repeat first [ apply spec_assoc | apply spec_ret_bind ];
  eapply spec_bind;
    [ first [ apply spec_enter | apply spec_Delete
            | apply spec_GetNamespace | apply spec_GetKubefedCluster ]
    | cbv beta; intros x ? -> ].

(** ** What the code makes of an outcome *)

Lemma tolerated_step (err : option error) (b : bool) :
  (if notNil err && negb (IsNotFound err) then false else b) = tolerated err && b.
Proof. by destruct err as [[[]| |]|], b. Qed.

Lemma tolerated_false (e : error) :
  IsNotFound (Some e) = false -> tolerated (Some e) = false.
Proof. unfold tolerated. simpl. by intros ->. Qed.

(** ** The teardown helpers, one by one *)

Section Helpers.
Context (env : Env).

(** Without dry run, [deleteClusterRoleAndBinding] issues its six deletes
    whatever their outcomes, and succeeds when each is tolerated. *)
Lemma deleteClusterRoleAndBinding_spec cs saName namespace :
  let del k ns n := Api (Build_Request (cs_server cs) DELETE k ns n) in
  let roleName := util_RoleName env saName in
  let healthCheckRoleName := util_HealthCheckRoleName env saName namespace in
  spec (deleteClusterRoleAndBinding env cs saName namespace false)
    (fun b evs => exists o1 o2 o3 o4 o5 o6,
       evs = [ Enter fn_deleteClusterRoleAndBinding;
               del ClusterRoleBindings "" roleName o1;
               del ClusterRoles "" roleName o2;
               del ClusterRoleBindings "" healthCheckRoleName o3;
               del ClusterRoles "" healthCheckRoleName o4;
               del RoleBindings namespace roleName o5;
               del Roles namespace roleName o6 ]
       /\ b = forallb tolerated [o1; o2; o3; o4; o5; o6]).
Proof.
  intros del roleName hcName. unfold deleteClusterRoleAndBinding. simpl forRange.
  do 8 spec_step.
  eexists _, _, _, _, _, _. split; [reflexivity|].
  rewrite !tolerated_step. simpl.
  repeat match goal with |- context [tolerated ?o] => destruct (tolerated o) end;
    reflexivity.
Qed.

Lemma deleteClusterRoleAndBinding_dry cs saName namespace :
  spec (deleteClusterRoleAndBinding env cs saName namespace true)
    (fun b evs => b = true /\ evs = [Enter fn_deleteClusterRoleAndBinding]).
Proof. unfold deleteClusterRoleAndBinding. spec_step. by apply spec_ret. Qed.

Lemma deleteServiceAccount_spec cs saName namespace :
  spec (deleteServiceAccount env cs saName namespace false)
    (fun o evs =>
       evs = [ Enter fn_deleteServiceAccount;
               Api (Build_Request (cs_server cs) DELETE ServiceAccounts
                      namespace saName) o ]).
Proof.
  unfold deleteServiceAccount. spec_step.
  eapply spec_weaken; [apply spec_Delete|]. by intros o evs ->.
Qed.

Lemma deleteServiceAccount_dry cs saName namespace :
  spec (deleteServiceAccount env cs saName namespace true)
    (fun o evs => o = None /\ evs = [Enter fn_deleteServiceAccount]).
Proof. unfold deleteServiceAccount. spec_step. by apply spec_ret. Qed.

(** Without dry run, [deleteRBACResources] issues all seven deletes, the
    service account last, whatever the outcomes; it succeeds when the six
    role and binding deletes are tolerated and the service-account delete
    returned no error at all. *)
Lemma deleteRBACResources_spec cs namespace unjoiningClusterName hostClusterName :
  let del k ns n := Api (Build_Request (cs_server cs) DELETE k ns n) in
  let saName :=
    util_ClusterServiceAccountName env unjoiningClusterName hostClusterName in
  let roleName := util_RoleName env saName in
  let healthCheckRoleName := util_HealthCheckRoleName env saName namespace in
  spec (deleteRBACResources env cs namespace unjoiningClusterName hostClusterName false)
    (fun b evs => exists o1 o2 o3 o4 o5 o6 o7,
       evs = [ Enter fn_deleteRBACResources;
               Enter fn_deleteClusterRoleAndBinding;
               del ClusterRoleBindings "" roleName o1;
               del ClusterRoles "" roleName o2;
               del ClusterRoleBindings "" healthCheckRoleName o3;
               del ClusterRoles "" healthCheckRoleName o4;
               del RoleBindings namespace roleName o5;
               del Roles namespace roleName o6;
               Enter fn_deleteServiceAccount;
               del ServiceAccounts namespace saName o7 ]
       /\ b = forallb tolerated [o1; o2; o3; o4; o5; o6] && negb (notNil o7)).
Proof.
  intros del saName roleName hcName. unfold deleteRBACResources.
  spec_step.
  eapply spec_bind; [apply deleteClusterRoleAndBinding_spec|].
  cbv beta. intros b evs1 (o1 & o2 & o3 & o4 & o5 & o6 & -> & ->).
  eapply spec_bind; [apply deleteServiceAccount_spec|].
  cbv beta. intros o7 evs2 ->. apply spec_ret.
  exists o1, o2, o3, o4, o5, o6, o7. split; [reflexivity|].
  destruct o7; simpl; rewrite ?andb_false_r, ?andb_true_r; reflexivity.
Qed.

Lemma deleteRBACResources_dry cs namespace unjoiningClusterName hostClusterName :
  spec (deleteRBACResources env cs namespace unjoiningClusterName hostClusterName true)
    (fun b evs =>
       b = true /\
       evs = [ Enter fn_deleteRBACResources;
               Enter fn_deleteClusterRoleAndBinding;
               Enter fn_deleteServiceAccount ]).
Proof.
  unfold deleteRBACResources. spec_step.
  eapply spec_bind; [apply deleteClusterRoleAndBinding_dry|].
  cbv beta. intros b evs1 [-> ->].
  eapply spec_bind; [apply deleteServiceAccount_dry|].
  cbv beta. intros o evs2 [-> ->]. by apply spec_ret.
Qed.

(** Without dry run, [deleteFedNSFromUnjoinCluster] ends in one of five
    ways. *)
Lemma deleteFedNSFromUnjoinCluster_spec hostCS cs kubefedNamespace unjoiningClusterName :
  let getH := Api (Build_Request (cs_server hostCS) GET Namespaces "" kubefedNamespace) in
  let getM := Api (Build_Request (cs_server cs) GET Namespaces "" kubefedNamespace) in
  let delM := Api (Build_Request (cs_server cs) DELETE Namespaces "" kubefedNamespace) in
  let start := Enter fn_deleteFedNSFromUnjoinCluster in
  spec (deleteFedNSFromUnjoinCluster env hostCS cs kubefedNamespace
          unjoiningClusterName false)
    (fun r evs =>
       (exists e, evs = [start; getH (Some e)] /\
          r = Some (Wrapf e "Error retrieving namespace %q from host cluster"
                            [kubefedNamespace]))
       \/ (exists e, evs = [start; getH None; getM (Some e)] /\
          r = Some (Wrapf e "Error retrieving namespace %q from unjoining cluster %q"
                            [kubefedNamespace; unjoiningClusterName]))
       \/ (evs = [start; getH None; getM None; Enter fn_IsPrimaryCluster] /\
           r = None)
       \/ (exists o, evs = [start; getH None; getM None; Enter fn_IsPrimaryCluster;
                            delM o] /\
           tolerated o = true /\ r = None)
       \/ (exists e, evs = [start; getH None; getM None; Enter fn_IsPrimaryCluster;
                            delM (Some e)] /\
           IsNotFound (Some e) = false /\
           r = Some (Wrapf e "Could not delete kubefed namespace %q from unjoining cluster %q"
                            [kubefedNamespace; unjoiningClusterName]))).
Proof.
  intros getH getM delM start. unfold deleteFedNSFromUnjoinCluster.
  spec_step. spec_step as gotH.
  destruct gotH as [hostNS|e]; [|apply spec_ret; left; by exists e].
  spec_step as gotM.
  destruct gotM as [memberNS|e]; [|apply spec_ret; right; left; by exists e].
  spec_step.
  destruct (IsPrimaryCluster hostNS memberNS);
    [apply spec_ret; by right; right; left|].
  spec_step as o.
  destruct (IsNotFound o) eqn:Hnf.
  { apply spec_ret. right; right; right; left. exists o.
    unfold tolerated. rewrite Hnf. by rewrite orb_true_r. }
  destruct o as [e|]; apply spec_ret.
  - right; right; right; right. by exists e.
  - right; right; right; left. by exists None.
Qed.

Lemma deleteFedNSFromUnjoinCluster_dry hostCS cs kubefedNamespace unjoiningClusterName :
  spec (deleteFedNSFromUnjoinCluster env hostCS cs kubefedNamespace
          unjoiningClusterName true)
    (fun r evs => r = None /\ evs = [Enter fn_deleteFedNSFromUnjoinCluster]).
Proof. unfold deleteFedNSFromUnjoinCluster. spec_step. by apply spec_ret. Qed.

(** [deleteKubefedClusterAndSecret]: nothing on a dry run; otherwise the
    registration is looked up and, when found, its secret and then the
    registration itself are deleted, whatever the first delete answers. *)
Lemma deleteKubefedClusterAndSecret_spec hostCS client kubefedNamespace
    unjoiningClusterName dryRun :
  let start := Enter fn_deleteKubefedClusterAndSecret in
  let get := Api (Build_Request (gc_server client) GET KubefedClusters
                    kubefedNamespace unjoiningClusterName) in
  spec (deleteKubefedClusterAndSecret env hostCS client kubefedNamespace
          unjoiningClusterName dryRun)
    (fun _ evs =>
       if dryRun then evs = [start] else
       (exists e, evs = [start; get (Some e)])
       \/ (exists fedCluster o1 o2,
             evs = [ start; get None;
                     Api (Build_Request (cs_server hostCS) DELETE Secrets
                            kubefedNamespace (kc_Spec_SecretRef_Name fedCluster)) o1;
                     Api (Build_Request (gc_server client) DELETE KubefedClusters
                            (kc_Namespace fedCluster) (kc_Name fedCluster)) o2 ])).
Proof.
  intros start get. unfold deleteKubefedClusterAndSecret. spec_step.
  destruct dryRun; [by apply spec_ret|].
  spec_step as got.
  destruct got as [fedCluster|e]; [|apply spec_ret; left; by exists e].
  spec_step as o1. spec_step as o2. apply spec_ret. right.
  by exists fedCluster, o1, o2.
Qed.

(** The member-side helpers emit teardown events only. *)
Lemma deleteRBACResources_teardown cs ns ucn hcn dryRun :
  emits teardownEvent (deleteRBACResources env cs ns ucn hcn dryRun).
Proof.
  destruct dryRun.
  - eapply spec_weaken; [apply deleteRBACResources_dry|].
    intros b evs [_ ->]. by repeat constructor.
  - eapply spec_weaken; [apply deleteRBACResources_spec|].
    intros b evs (o1 & o2 & o3 & o4 & o5 & o6 & o7 & -> & _).
    by repeat constructor.
Qed.

Lemma deleteFedNSFromUnjoinCluster_teardown hostCS cs ns ucn dryRun :
  emits teardownEvent (deleteFedNSFromUnjoinCluster env hostCS cs ns ucn dryRun).
Proof.
  destruct dryRun.
  - eapply spec_weaken; [apply deleteFedNSFromUnjoinCluster_dry|].
    intros b evs [_ ->]. by repeat constructor.
  - eapply spec_weaken; [apply deleteFedNSFromUnjoinCluster_spec|].
    intros b evs [(e & -> & _)|[(e & -> & _)|[(-> & _)|[(o & -> & _)|(e & -> & _)]]]];
      by repeat constructor.
Qed.

End Helpers.

(** ** [UnjoinCluster] *)

Section Unjoin.
Context (env : Env).
Context (hostConfig clusterConfig : option rest_Config).
Context (kubefedNamespace hostClusterName hostClusterContext
         unjoiningClusterContext unjoiningClusterName : string).
Context (forceDeletion dryRun : bool).

Let run : option error * Trace :=
  UnjoinCluster env hostConfig clusterConfig kubefedNamespace hostClusterName
    hostClusterContext unjoiningClusterContext unjoiningClusterName
    forceDeletion dryRun [].

(** The run of [UnjoinCluster] once its three clients are settled: the
    teardown on the member when there is a member client, then the test
    that guards the host-side deregistration. *)
Lemma UnjoinCluster_past_clients hostClientset client :
  util_HostClientset env hostConfig = inl hostClientset ->
  genericclient_New env hostConfig = inl client ->
  (memberBuild env clusterConfig).2 = None \/ forceDeletion = true ->
  run =
    match (memberBuild env clusterConfig).1 with
    | Some cs =>
        let rbac := deleteRBACResources env cs kubefedNamespace
                      unjoiningClusterName hostClusterName dryRun [] in
        let nsd := deleteFedNSFromUnjoinCluster env hostClientset cs
                     kubefedNamespace unjoiningClusterName dryRun rbac.2 in
        (None,
         if (if notNil nsd.1 then false else rbac.1) || forceDeletion
         then (deleteKubefedClusterAndSecret env hostClientset client
                 kubefedNamespace unjoiningClusterName dryRun nsd.2).2
         else nsd.2)
    | None =>
        (None,
         if forceDeletion
         then (deleteKubefedClusterAndSecret env hostClientset client
                 kubefedNamespace unjoiningClusterName dryRun []).2
         else [])
    end.
Proof.
  intros Hh Hc Hm. unfold run, UnjoinCluster, memberBuild in *. rewrite Hh, Hc.
  set (built := match clusterConfig with
                | Some cfg => util_ClusterClientset env cfg
                | None => (None, None)
                end) in *.
  assert (notNil built.2 && negb forceDeletion = false) as ->.
  { destruct Hm as [-> | ->]; [done | by rewrite andb_false_r]. }
  destruct built.1 as [cs|]; unfold bind, ret; simpl.
  - by destruct (_ || forceDeletion).
  - by destruct forceDeletion.
Qed.

(** The trace of the member-side teardown holds teardown events only. *)
Lemma teardown_trace hostClientset cs :
  let rbac := deleteRBACResources env cs kubefedNamespace
                unjoiningClusterName hostClusterName dryRun [] in
  let nsd := deleteFedNSFromUnjoinCluster env hostClientset cs
               kubefedNamespace unjoiningClusterName dryRun rbac.2 in
  Forall teardownEvent nsd.2.
Proof.
  intros rbac nsd. apply (emits_from teardownEvent).
  - apply deleteFedNSFromUnjoinCluster_teardown.
  - apply emits_run, deleteRBACResources_teardown.
Qed.

Lemma deregistration_enters hostClientset client tr :
  In (Enter fn_deleteKubefedClusterAndSecret)
     (deleteKubefedClusterAndSecret env hostClientset client
        kubefedNamespace unjoiningClusterName dryRun tr).2.
Proof.
  destruct (deleteKubefedClusterAndSecret_spec env hostClientset client
              kubefedNamespace unjoiningClusterName dryRun tr) as (evs & -> & H).
  apply in_or_app. right.
  destruct dryRun; [subst; by left|].
  destruct H as [(e & ->)|(fc & o1 & o2 & ->)]; by left.
Qed.

(** C2. Past the construction of its clients, [UnjoinCluster] enters
    [deleteKubefedClusterAndSecret] exactly when the member-side teardown
    succeeded (there was a member client, [deleteRBACResources] returned
    true and [deleteFedNSFromUnjoinCluster] returned nil) or [forceDeletion]
    is set; when the teardown did not succeed and [forceDeletion] is false,
    no request of the run touches a secret or a registration record. *)
Theorem C2_deregistration_condition hostClientset client :
  util_HostClientset env hostConfig = inl hostClientset ->
  genericclient_New env hostConfig = inl client ->
  (memberBuild env clusterConfig).2 = None \/ forceDeletion = true ->
  let teardownSucceeded :=
    exists cs, (memberBuild env clusterConfig).1 = Some cs /\
      let rbac := deleteRBACResources env cs kubefedNamespace
                    unjoiningClusterName hostClusterName dryRun [] in
      let nsd := deleteFedNSFromUnjoinCluster env hostClientset cs
                   kubefedNamespace unjoiningClusterName dryRun rbac.2 in
      rbac.1 = true /\ nsd.1 = None in
  (In (Enter fn_deleteKubefedClusterAndSecret) run.2
   <-> teardownSucceeded \/ forceDeletion = true)
  /\ (~ teardownSucceeded -> forceDeletion = false ->
      forall r o, In (Api r o) run.2 ->
                  r_kind r <> Secrets /\ r_kind r <> KubefedClusters).
Proof.
  intros Hh Hc Hm teardownSucceeded.
  rewrite (UnjoinCluster_past_clients _ _ Hh Hc Hm).
  subst teardownSucceeded.
  destruct (memberBuild env clusterConfig).1 as [cs|] eqn:Hcs; cbv zeta.
  - pose proof (teardown_trace hostClientset cs) as Htd. cbv zeta in Htd.
    set (rbac := deleteRBACResources env cs _ _ _ _ []) in *.
    set (nsd := deleteFedNSFromUnjoinCluster env hostClientset cs _ _ _ _) in *.
    rewrite Forall_forall in Htd.
    assert (((if notNil nsd.1 then false else rbac.1) = true)
            <-> (rbac.1 = true /\ nsd.1 = None)) as Hok.
    { destruct nsd.1, rbac.1; simpl; intuition congruence. }
    destruct ((if notNil nsd.1 then false else rbac.1) || forceDeletion) eqn:Hg;
      simpl.
    + apply orb_true_iff in Hg. split.
      * split; [|intros _; apply deregistration_enters].
        intros _. destruct Hg as [Hg|Hg]; [left|by right].
        exists cs. split; [done|]. by apply Hok.
      * intros Hno Hf. destruct Hg as [Hg|Hg]; [|congruence].
        exfalso. apply Hno. exists cs. split; [done|]. by apply Hok.
    + apply orb_false_iff in Hg as [Hg ->]. split.
      * split.
        -- intros Hin. apply list_elem_of_In, Htd in Hin. by simpl in Hin.
        -- intros [(cs' & Heq & Hs)|]; [|done].
           injection Heq as <-. apply Hok in Hs. congruence.
      * intros _ _ r o Hin. apply list_elem_of_In, Htd in Hin. by simpl in Hin.
  - destruct forceDeletion; simpl.
    + split; [|done]. split; [by right|]. intros _. apply deregistration_enters.
    + split; [|by intros _ _ r o []]. split; [by intros []|].
      by intros [(cs & Heq & _)|].
Qed.

(** C10. When the host clientset and the generic client are built, and
    the member clientset was built without error or [forceDeletion] is set,
    [UnjoinCluster] returns nil, whatever the member-side deletions did. *)
Theorem C10_teardown_failure_is_not_returned hostClientset client :
  util_HostClientset env hostConfig = inl hostClientset ->
  genericclient_New env hostConfig = inl client ->
  (memberBuild env clusterConfig).2 = None \/ forceDeletion = true ->
  run.1 = None.
Proof.
  intros Hh Hc Hm. rewrite (UnjoinCluster_past_clients _ _ Hh Hc Hm).
  by destruct (memberBuild env clusterConfig).1.
Qed.

End Unjoin.

(** ** Dry run *)

(** On a dry run [UnjoinCluster] issues no request; its trace is one of
    three lists of entries. *)
Lemma UnjoinCluster_dry_trace env hostConfig clusterConfig kubefedNamespace
    hostClusterName hostClusterContext unjoiningClusterContext
    unjoiningClusterName forceDeletion :
  let run := UnjoinCluster env hostConfig clusterConfig kubefedNamespace
               hostClusterName hostClusterContext unjoiningClusterContext
               unjoiningClusterName forceDeletion true [] in
  run.2 = []
  \/ run.2 = [Enter fn_deleteKubefedClusterAndSecret]
  \/ run.2 = [ Enter fn_deleteRBACResources;
               Enter fn_deleteClusterRoleAndBinding;
               Enter fn_deleteServiceAccount;
               Enter fn_deleteFedNSFromUnjoinCluster;
               Enter fn_deleteKubefedClusterAndSecret ].
Proof.
  unfold UnjoinCluster.
  destruct (util_HostClientset env hostConfig) as [hcs|e]; [|by left].
  destruct (match clusterConfig with
            | Some cfg => util_ClusterClientset env cfg
            | None => (None, None)
            end) as [[cs|] err]; simpl;
    destruct (notNil err && negb forceDeletion); try (by left);
    destruct (genericclient_New env hostConfig) as [client|e]; try (by left);
    destruct forceDeletion; simpl; auto.
Qed.

(** C5 (as amended). With [dryRun] set, for every input: [UnjoinCluster]
    issues no request at all, so no delete; each sub-operation reports
    success; the primary-cluster check is not reached; and the test before
    the host-side deregistration is still evaluated: past the construction
    of the clients, [deleteKubefedClusterAndSecret] is entered exactly when
    there is a member client or [forceDeletion] is set. *)
Theorem C5_dry_run env hostConfig clusterConfig kubefedNamespace
    hostClusterName hostClusterContext unjoiningClusterContext
    unjoiningClusterName forceDeletion :
  let run := UnjoinCluster env hostConfig clusterConfig kubefedNamespace
               hostClusterName hostClusterContext unjoiningClusterContext
               unjoiningClusterName forceDeletion true [] in
  Forall silentEvent run.2
  /\ ~ In (Enter fn_IsPrimaryCluster) run.2
  /\ (forall cs sa ns tr,
        (deleteClusterRoleAndBinding env cs sa ns true tr).1 = true
        /\ (deleteServiceAccount env cs sa ns true tr).1 = None)
  /\ (forall cs tr,
        (deleteRBACResources env cs kubefedNamespace unjoiningClusterName
           hostClusterName true tr).1 = true)
  /\ (forall hcs cs tr,
        (deleteFedNSFromUnjoinCluster env hcs cs kubefedNamespace
           unjoiningClusterName true tr).1 = None)
  /\ (forall hostClientset client,
        util_HostClientset env hostConfig = inl hostClientset ->
        genericclient_New env hostConfig = inl client ->
        (memberBuild env clusterConfig).2 = None \/ forceDeletion = true ->
        (In (Enter fn_deleteKubefedClusterAndSecret) run.2
         <-> is_Some (memberBuild env clusterConfig).1 \/ forceDeletion = true)).
Proof.
  intros run.
  pose proof (UnjoinCluster_dry_trace env hostConfig clusterConfig
                kubefedNamespace hostClusterName hostClusterContext
                unjoiningClusterContext unjoiningClusterName forceDeletion) as Ht.
  cbv zeta in Ht. fold run in Ht.
  split; [|split; [|split; [|split; [|split]]]].
  - destruct Ht as [->|[->| ->]]; by repeat constructor.
  - destruct Ht as [->|[->| ->]]; simpl; intuition discriminate.
  - intros cs sa ns tr. split.
    + by destruct (deleteClusterRoleAndBinding_dry env cs sa ns tr) as (? & _ & ? & _).
    + by destruct (deleteServiceAccount_dry env cs sa ns tr) as (? & _ & ? & _).
  - intros cs tr.
    by destruct (deleteRBACResources_dry env cs kubefedNamespace
                   unjoiningClusterName hostClusterName tr) as (? & _ & ? & _).
  - intros hcs cs tr.
    by destruct (deleteFedNSFromUnjoinCluster_dry env hcs cs kubefedNamespace
                   unjoiningClusterName tr) as (? & _ & ? & _).
  - intros hostClientset client Hh Hc Hm. unfold run.
    rewrite (UnjoinCluster_past_clients _ _ _ _ _ _ _ _ _ _ _ _ Hh Hc Hm).
    destruct (memberBuild env clusterConfig).1 as [cs|]; simpl.
    + split; [intros _; left; by eexists | intros _; by do 4 right; left].
    + destruct forceDeletion; simpl.
      * split; [by right | by left].
      * split; [done|]. by intros [[? ?]|].
Qed.

(** ** [Run]: an unreachable member *)

(** C3. When the member client cannot be built: without [forceDeletion],
    [Run] issues no request and returns an error, the member's own error
    when the host side builds; with [forceDeletion] and the host side
    built, [Run] returns nil and does nothing but the host-side
    deregistration, which (off dry run, the registration being found)
    deletes the secret and then the registration record. *)
Theorem C3_force_degradation env config j e :
  memberClientFails env config j e ->
  let run := Run env j config [] in
  let g := Global j in
  let c := Common j in
  let hostBuilds hostConfig hostClientset :=
    HostConfig config (HostClusterContext g) (Kubeconfig g) = (hostConfig, None)
    /\ util_HostClientset env hostConfig = inl hostClientset in
  (forceDeletion j = false ->
     run.2 = [] /\ is_Some run.1
     /\ (forall hostConfig hostClientset,
           hostBuilds hostConfig hostClientset -> run.1 = Some e))
  /\ (forceDeletion j = true ->
      forall hostConfig hostClientset client,
        hostBuilds hostConfig hostClientset ->
        genericclient_New env hostConfig = inl client ->
        let get := Build_Request (gc_server client) GET KubefedClusters
                     (KubefedNamespace g) (ClusterName c) in
        run.1 = None
        /\ run.2 = (deleteKubefedClusterAndSecret env hostClientset client
                      (KubefedNamespace g) (ClusterName c) (DryRun g) []).2
        /\ (DryRun g = false ->
            forall fedCluster,
              server_GetKubefedCluster env
                [Enter fn_deleteKubefedClusterAndSecret] get = inl fedCluster ->
              exists o1 o2,
                run.2 =
                  [ Enter fn_deleteKubefedClusterAndSecret;
                    Api get None;
                    Api (Build_Request (cs_server hostClientset) DELETE Secrets
                           (KubefedNamespace g)
                           (kc_Spec_SecretRef_Name fedCluster)) o1;
                    Api (Build_Request (gc_server client) DELETE KubefedClusters
                           (kc_Namespace fedCluster) (kc_Name fedCluster)) o2 ])).
Proof.
  intros Hfail run g c hostBuilds. unfold memberClientFails in Hfail.
  subst run hostBuilds g c. unfold Run. cbv zeta.
  destruct (HostConfig config _ _) as [hc herr] eqn:Hhc.
  set (got := ClusterConfig config _ _) in *.
  split.
  - intros Hforce. rewrite Hforce. simpl.
    destruct herr as [he|]; simpl.
    { split; [done|]. split; [by eexists|]. by intros ? ? [[=] _]. }
    destruct Hfail as [-> | (cfg & -> & Hcs)]; simpl.
    { split; [done|]. split; [by eexists|]. done. }
    unfold UnjoinCluster.
    destruct (util_HostClientset env hc) as [hcs|he] eqn:Hhcs; simpl.
    + rewrite Hcs. simpl. split; [done|]. split; [by eexists|]. done.
    + split; [done|]. split; [by eexists|].
      intros ? ? [[= <-] Hh]. congruence.
  - intros Hforce hostConfig hostClientset client [[= <- ->] Hh] Hc.
    rewrite Hforce. simpl. rewrite andb_false_r.
    rewrite (UnjoinCluster_past_clients _ _ _ _ _ _ _ _ _ _ _ _ Hh Hc
                 (or_intror eq_refl)).
    assert ((memberBuild env got.1).1 = None) as ->.
    { destruct Hfail as [-> | (cfg & -> & Hcs)]; simpl; [done|]. by rewrite Hcs. }
    simpl. split; [done|]. split; [done|].
    intros Hdry fedCluster Hget. rewrite Hdry.
    unfold deleteKubefedClusterAndSecret, bind, enter, GetKubefedCluster, Delete.
    simpl. rewrite Hget. simpl. by eexists _, _.
Qed.

(** ** RBAC teardown *)

Lemma forallb_has_false {A} (f : A -> bool) (l : list A) (x : A) :
  In x l -> f x = false -> forallb f l = false.
Proof.
  intros Hin Hf. induction l as [|y l IH]; [done|]. simpl.
  destruct Hin as [->|Hin]; [by rewrite Hf|].
  rewrite IH by done. apply andb_false_r.
Qed.

(** C9. Without dry run, [deleteRBACResources] issues its seven deletes
    in a fixed order, the service-account delete last, whatever the earlier
    ones answered; and an error other than NotFound on any role or binding
    delete makes the aggregate result false. *)
Theorem C9_best_effort_rbac env cs namespace unjoiningClusterName hostClusterName :
  let run := deleteRBACResources env cs namespace unjoiningClusterName
               hostClusterName false [] in
  requestsOf run.2 = rbacRequests env cs namespace unjoiningClusterName hostClusterName
  /\ (forall r e,
        In (Api r (Some e)) run.2 ->
        r_kind r <> ServiceAccounts ->
        IsNotFound (Some e) = false ->
        run.1 = false).
Proof.
  intros run.
  destruct (spec_run _ _ (deleteRBACResources_spec env cs namespace
                            unjoiningClusterName hostClusterName))
    as (o1 & o2 & o3 & o4 & o5 & o6 & o7 & Htr & Hres).
  fold run in Htr, Hres. rewrite Htr, Hres. split; [reflexivity|].
  intros r e Hin Hkind Hnf. apply tolerated_false in Hnf.
  simpl in Hin.
  repeat (destruct Hin as [Hin|Hin];
          [ first [ discriminate Hin
                  | injection Hin as <- ->; first [ by destruct Hkind | idtac ] ]
          | ]);
    try (by destruct Hin);
    (rewrite (forallb_has_false tolerated _ (Some e));
     [reflexivity | simpl; tauto | exact Hnf]).
Qed.

(** The service-account delete is held to a stricter rule: any error it
    returns, NotFound included, makes the result false. *)
Lemma deleteRBACResources_serviceAccount_error env cs namespace
    unjoiningClusterName hostClusterName r e :
  let run := deleteRBACResources env cs namespace unjoiningClusterName
               hostClusterName false [] in
  In (Api r (Some e)) run.2 -> r_kind r = ServiceAccounts -> run.1 = false.
Proof.
  intros run.
  destruct (spec_run _ _ (deleteRBACResources_spec env cs namespace
                            unjoiningClusterName hostClusterName))
    as (o1 & o2 & o3 & o4 & o5 & o6 & o7 & Htr & Hres).
  fold run in Htr, Hres. rewrite Htr, Hres.
  intros Hin Hkind. simpl in Hin.
  repeat (destruct Hin as [Hin|Hin];
          [ first [ discriminate Hin
                  | injection Hin as <- ->; first [ discriminate Hkind | idtac ] ]
          | ]);
    try (by destruct Hin).
  simpl. by rewrite andb_false_r.
Qed.

(** C1 (the code at the failing input). On a member where every object
    is already absent, each of the seven deletes of [deleteRBACResources]
    answers NotFound, and the function reports failure; [UnjoinCluster]
    without [forceDeletion] then leaves the secret and the registration
    record on the host alone. *)
Theorem C1_all_NotFound_reports_failure :
  let run := deleteRBACResources Example.envGone Example.memberCS
               Example.fedNS "cluster2" "cluster1" false [] in
  let unjoined := Example.unjoin Example.envGone false false in
  List.length (requestsOf run.2) = 7%nat
  /\ Forall (fun ev => match ev with
                       | Api _ o => IsNotFound o = true
                       | Enter _ => True
                       end) run.2
  /\ run.1 = false
  /\ unjoined.1 = None
  /\ Forall teardownEvent unjoined.2.
Proof.
  cbv zeta. split; [reflexivity|]. split; [|split; [reflexivity|]].
  - vm_compute. repeat constructor.
  - split; [reflexivity|]. vm_compute. repeat constructor; discriminate.
Qed.

(** ** Namespace teardown *)

(** What [deleteFedNSFromUnjoinCluster] makes of the answer to its
    delete: success, NotFound included, is nil; any other error comes back
    annotated. *)
Definition namespaceDeleteResult (kubefedNamespace unjoiningClusterName : string)
    (o : option error) : option error :=
  match o with
  | None => None
  | Some e =>
      if IsNotFound (Some e) then None
      else Some (Wrapf e
                   "Could not delete kubefed namespace %q from unjoining cluster %q"
                   [kubefedNamespace; unjoiningClusterName])
  end.

(** C4 (as amended). Without dry run, [deleteFedNSFromUnjoinCluster]
    first looks the namespace up on the host, then on the member.  A
    failed lookup, on the host or on the member and for whatever reason
    (NotFound included), ends the function there with that error,
    annotated, and nothing deleted.  The delete is issued only after both
    lookups succeeded and the primary test on their answers was negative;
    the namespace being absent on the member counts as success only when
    that delete answers NotFound, and any other error of the delete is
    returned, annotated.  The run is given by the answers of the servers
    alone. *)
Theorem C4_lookups_fail_closed env hostCS cs kubefedNamespace unjoiningClusterName :
  let start := Enter fn_deleteFedNSFromUnjoinCluster in
  let getH := Build_Request (cs_server hostCS) GET Namespaces "" kubefedNamespace in
  let getM := Build_Request (cs_server cs) GET Namespaces "" kubefedNamespace in
  let delM := Build_Request (cs_server cs) DELETE Namespaces "" kubefedNamespace in
  let looked := [start; Api getH None; Api getM None; Enter fn_IsPrimaryCluster] in
  let run := deleteFedNSFromUnjoinCluster env hostCS cs kubefedNamespace
               unjoiningClusterName false [] in
  match server_GetNamespace env [start] getH with
  | inr e =>
      run = (Some (Wrapf e "Error retrieving namespace %q from host cluster"
                     [kubefedNamespace]),
             [start; Api getH (Some e)])
  | inl hostNS =>
      match server_GetNamespace env [start; Api getH None] getM with
      | inr e =>
          run = (Some (Wrapf e
                         "Error retrieving namespace %q from unjoining cluster %q"
                         [kubefedNamespace; unjoiningClusterName]),
                 [start; Api getH None; Api getM (Some e)])
      | inl memberNS =>
          if IsPrimaryCluster hostNS memberNS
          then run = (None, looked)
          else run = (namespaceDeleteResult kubefedNamespace unjoiningClusterName
                        (server_Delete env looked delM),
                      looked ++ [Api delM (server_Delete env looked delM)])
      end
  end
  /\ (forall r e, In (Api r (Some e)) run.2 -> r_verb r = GET ->
                  exists format args, run.1 = Some (Wrapf e format args))
  /\ (forall r e, In (Api r (Some e)) run.2 -> r_verb r = DELETE ->
                  if IsNotFound (Some e) then run.1 = None
                  else exists format args, run.1 = Some (Wrapf e format args)).
Proof.
  intros start getH getM delM looked run. split.
  { subst run.
    unfold deleteFedNSFromUnjoinCluster, bind, enter, GetNamespace, Delete, ret.
    simpl. fold start getH.
    destruct (server_GetNamespace env [start] getH) as [hostNS|e]; simpl;
      [|reflexivity].
    fold getM.
    destruct (server_GetNamespace env [start; Api getH None] getM)
      as [memberNS|e]; simpl; [|reflexivity].
    fold looked. destruct (IsPrimaryCluster hostNS memberNS); [reflexivity|].
    simpl. fold delM. unfold namespaceDeleteResult.
    destruct (server_Delete env looked delM) as [e|]; [|reflexivity].
    destruct (IsNotFound (Some e)); reflexivity. }
  pose proof (spec_run _ _ (deleteFedNSFromUnjoinCluster_spec env hostCS cs
                              kubefedNamespace unjoiningClusterName)) as H.
  cbv zeta in H. fold run in H.
  destruct H as [(e' & Htr & Hres)|[(e' & Htr & Hres)|[(Htr & Hres)|
                 [(o & Htr & Htol & Hres)|(e' & Htr & Hnf & Hres)]]]];
    rewrite Htr, Hres; split; intros r e Hin Hverb; simpl in Hin;
    repeat (destruct Hin as [Hin|Hin];
            [ first [ discriminate Hin
                    | injection Hin as <- ?; subst; try discriminate Hverb ]
            | ]);
    try (by destruct Hin); eauto.
  - unfold tolerated in Htol. change (IsNotFound (Some e) = true) in Htol.
    by rewrite Htol.
  - rewrite Hnf. eauto.
Qed.

(** ** Validation of the command line *)

Lemma ContainsAny_colon_slash (s : string) :
  strings.ContainsAny s ":/" = true
  <-> In ":"%char (list_ascii_of_string s) \/ In "/"%char (list_ascii_of_string s).
Proof.
  unfold strings.ContainsAny. rewrite existsb_exists. simpl. split.
  - intros (c & Hin & Hc). rewrite orb_false_r in Hc.
    apply orb_true_iff in Hc as [Hc|Hc]; apply Ascii.eqb_eq in Hc; subst; auto.
  - intros [H|H]; eexists; (split; [exact H|]); simpl; reflexivity.
Qed.

(** C8. [Complete] takes no client and no environment: it cannot issue a
    request.  It fails exactly when no argument is given, or the
    host-cluster-name override is set and contains ':' or '/', or the
    override is unset and the host cluster context contains one of them;
    and then the command ends fatally with an empty trace. *)
Theorem C8_validation env config j args :
  let hasBad s := In ":"%char (list_ascii_of_string s)
                  \/ In "/"%char (list_ascii_of_string s) in
  let override := HostClusterName (Common j) in
  (is_Some (Complete j args).1
   <-> args = []
       \/ (override <> "" /\ hasBad override)
       \/ (override = "" /\ hasBad (HostClusterContext (Global j))))
  /\ (forall e, (Complete j args).1 = Some e ->
                NewCmdUnjoin_Run env j config args [] = (Fatal e, [])).
Proof.
  intros hasBad override. split.
  - unfold Complete, SetName. destruct args as [|a args]; simpl.
    { split; [by left | by eexists]. }
    destruct (bool_decide (ClusterContext (Common j) = "")); simpl;
      fold override;
      (destruct (bool_decide (override <> "")) eqn:Hne; simpl;
       [ apply bool_decide_eq_true in Hne;
         destruct (strings.ContainsAny override ":/") eqn:Hc; simpl;
         [ apply ContainsAny_colon_slash in Hc;
           split; [intros _; right; left; done | by eexists]
         | rewrite (bool_decide_eq_false_2 _ Hne); simpl;
           split; [by intros [? [=]]|];
           intros [?|[[_ Hb]|[? _]]]; [done| |done];
           apply ContainsAny_colon_slash in Hb; congruence ]
       | apply bool_decide_eq_false in Hne;
         assert (override = "") as Hov by (by destruct (decide (override = "")));
         rewrite (bool_decide_eq_true_2 _ Hov); simpl;
         destruct (strings.ContainsAny (HostClusterContext (Global j)) ":/") eqn:Hc;
         [ apply ContainsAny_colon_slash in Hc;
           split; [intros _; right; right; done | by eexists]
         | split; [by intros [? [=]]|];
           intros [?|[[? _]|[_ Hb]]]; [done|done|];
           apply ContainsAny_colon_slash in Hb; congruence ] ]).
  - intros e He. unfold NewCmdUnjoin_Run.
    destruct (Complete j args) as [err j']. simpl in He. by rewrite He.
Qed.

(** ** Health and zones of a member cluster *)

Module kubefedcluster_proofs.
Import kubefedcluster.

(** C6. [GetClusterHealthStatus] classifies a probe in three ways: a
    request error gives the single condition Offline=True; a body that
    [strings.EqualFold] equates with "ok" gives the single condition
    Ready=True; any other body gives the two conditions Ready=False and
    Offline=False, in that order. *)
Theorem C6_health_classification (strings_EqualFold : string -> string -> bool)
    (self : ClusterClient) (currentTime : Time) :
  let probe := Get_AbsPath_Do_Raw (kubeClient self) "/healthz" in
  let conditions :=
    Conditions (GetClusterHealthStatus strings_EqualFold self currentTime) in
  (is_Some probe.2 ->
     exists c, conditions = [c]
               /\ Type_ c = ClusterOffline /\ Status c = ConditionTrue)
  /\ (probe.2 = None -> strings_EqualFold probe.1 "ok" = true ->
      exists c, conditions = [c]
                /\ Type_ c = ClusterReady /\ Status c = ConditionTrue)
  /\ (probe.2 = None -> strings_EqualFold probe.1 "ok" = false ->
      exists c1 c2, conditions = [c1; c2]
                    /\ Type_ c1 = ClusterReady /\ Status c1 = ConditionFalse
                    /\ Type_ c2 = ClusterOffline /\ Status c2 = ConditionFalse).
Proof.
  intros probe conditions. subst conditions. unfold GetClusterHealthStatus.
  fold probe. destruct probe as [body err]. simpl.
  split; [|split].
  - intros [e ->]. simpl. by eexists.
  - intros -> ->. simpl. by eexists.
  - intros -> ->. simpl. by eexists _, _.
Qed.

(** The loop over the labels returns the value under the wanted key, and
    the empty string when the key is absent; Go's iteration order over a
    map does not matter, because keys are unique. *)
Lemma rangeFind_found want v (kvs : list (string * string)) :
  NoDup kvs.*1 -> (want, v) ∈ kvs -> rangeFind want kvs = v.
Proof.
  induction kvs as [|[k v'] kvs IH]; intros Hnd Hin; [by inversion Hin|].
  simpl in *. apply NoDup_cons in Hnd as [Hk Hnd]. case_bool_decide as Heq.
  - subst k. apply elem_of_cons in Hin as [[= ->]|Hin]; [done|].
    exfalso. apply Hk. apply list_elem_of_fmap. by exists (want, v).
  - apply elem_of_cons in Hin as [[= -> ->]|Hin]; [done|]. by apply IH.
Qed.

Lemma rangeFind_absent want (kvs : list (string * string)) :
  want ∉ kvs.*1 -> rangeFind want kvs = "".
Proof.
  induction kvs as [|[k v'] kvs IH]; intros Hin; [done|].
  simpl in *. apply not_elem_of_cons in Hin as [Hne Hin].
  case_bool_decide; [congruence|]. by apply IH.
Qed.

Lemma rangeFind_lookup want (labels : gmap string string) kvs :
  kvs ≡ₚ map_to_list labels ->
  rangeFind want kvs = default "" (labels !! want).
Proof.
  intros Hp. destruct (labels !! want) as [v|] eqn:Hl; simpl.
  - apply rangeFind_found.
    + rewrite Hp. apply NoDup_fst_map_to_list.
    + rewrite Hp. by apply elem_of_map_to_list.
  - apply rangeFind_absent. rewrite Hp. intros Hin.
    apply list_elem_of_fmap in Hin as ([k v] & -> & Hin).
    apply elem_of_map_to_list in Hin. simpl in Hl. congruence.
Qed.

Lemma getZoneNameForNode_lookup node :
  getZoneNameForNode node = default "" (Labels node !! LabelZoneFailureDomain).
Proof. by apply rangeFind_lookup. Qed.

Lemma getRegionNameForNode_lookup node :
  getRegionNameForNode node = default "" (Labels node !! LabelZoneRegion).
Proof. by apply rangeFind_lookup. Qed.

(** The loop of [GetClusterZones]: the zones gathered, and the region. *)
Lemma zonesLoop_zones items : forall i zones region z,
  z ∈ (zonesLoop i items zones region).1
  <-> z ∈ zones
      \/ (z <> "" /\ exists node, node ∈ items /\ getZoneNameForNode node = z).
Proof.
  induction items as [|node rest IH]; intros i zones region z; simpl.
  - split; [by left|]. intros [?|(_ & n & Hin & _)]; [done|]. by inversion Hin.
  - rewrite IH. clear IH. set (zone := getZoneNameForNode node).
    split.
    + intros [Hz|(Hne & n & Hin & Hn)].
      * case_bool_decide as Hzone; simpl in Hz;
          [case_bool_decide as Hhas; simpl in Hz|]; auto.
        apply elem_of_union in Hz as [Hz|Hz]; [|by left].
        apply elem_of_singleton in Hz. subst z. right. split; [done|].
        exists node. split; [by left|done].
      * right. split; [done|]. exists n. split; [by right|done].
    + intros [Hz|(Hne & n & Hin & Hn)].
      * left. repeat case_bool_decide; simpl; set_solver.
      * apply elem_of_cons in Hin as [->|Hin].
        -- left. fold zone in Hn. subst z.
           rewrite (bool_decide_eq_true_2 _ Hne). simpl.
           case_bool_decide; simpl; set_solver.
        -- right. split; [done|]. by exists n.
Qed.

Lemma zonesLoop_region_later items : forall i zones region,
  i <> 0%nat -> (zonesLoop i items zones region).2 = region.
Proof.
  induction items as [|node rest IH]; intros i zones region Hi; simpl; [done|].
  rewrite IH by done. by rewrite bool_decide_eq_false_2.
Qed.

Lemma zonesLoop_region_first items zones region :
  (zonesLoop 0 items zones region).2
  = match items with
    | [] => region
    | node :: _ => getRegionNameForNode node
    end.
Proof. destruct items; simpl; [done|]. by rewrite zonesLoop_region_later. Qed.

#[local] Instance string_le_total : Total string_le.
Proof. intros s t. apply String.leb_total. Qed.

(** [List] of a string set lists its members once each, in order. *)
Lemma sets_List_spec (s : gset string) :
  NoDup (sets_List s) /\ Sorted string_le (sets_List s)
  /\ forall z, z ∈ sets_List s <-> z ∈ s.
Proof.
  unfold sets_List. split; [|split].
  - rewrite merge_sort_Permutation. apply NoDup_elements.
  - apply Sorted_merge_sort, _.
  - intros z. rewrite merge_sort_Permutation. apply elem_of_elements.
Qed.

(** C7. On a successful listing, [GetClusterZones] returns no error; the
    zones are, once each (and in increasing order), the non-empty zone
    labels of the nodes; the region is the region label of the first node
    listed, and the empty string when that node has none or no node is
    listed: no later node is read for it. *)
Theorem C7_zones_and_region (self : ClusterClient) (nodes : list Node) :
  Nodes_List (kubeClient self) = (nodes, None) ->
  let result := GetClusterZones self in
  result.2 = None
  /\ NoDup result.1.1
  /\ Sorted string_le result.1.1
  /\ (forall z, z ∈ result.1.1
                <-> z <> ""
                    /\ exists node, node ∈ nodes
                         /\ Labels node !! LabelZoneFailureDomain = Some z)
  /\ result.1.2 = match nodes with
                  | [] => ""
                  | first :: _ => default "" (Labels first !! LabelZoneRegion)
                  end.
Proof.
  intros Hlist result. subst result. unfold GetClusterZones. rewrite Hlist.
  destruct (zonesLoop 0 nodes ∅ "") as [zones region] eqn:Hloop. simpl.
  destruct (sets_List_spec zones) as (Hnd & Hsorted & Hmem).
  split; [done|]. split; [done|]. split; [done|]. split.
  - intros z. rewrite Hmem.
    replace zones with (zonesLoop 0 nodes ∅ "").1 by (by rewrite Hloop).
    rewrite zonesLoop_zones. split.
    + intros [Hz|(Hne & n & Hin & Hn)]; [set_solver|].
      split; [done|]. exists n. split; [done|].
      rewrite getZoneNameForNode_lookup in Hn.
      destruct (Labels n !! LabelZoneFailureDomain); simpl in Hn; congruence.
    + intros (Hne & n & Hin & Hn). right. split; [done|]. exists n.
      split; [done|]. rewrite getZoneNameForNode_lookup. by rewrite Hn.
  - replace region with (zonesLoop 0 nodes ∅ "").2 by (by rewrite Hloop).
    rewrite zonesLoop_region_first. destruct nodes; [done|].
    apply getRegionNameForNode_lookup.
Qed.

End kubefedcluster_proofs.

(** * The theorems at concrete inputs *)

Module Instances.
Import Example.

(** The scenario of the specification: unjoin cluster2 from host context
    cluster1, no force, no dry run, member reachable and not primary, all
    objects present.  Every delete succeeds, the secret and the
    registration of cluster2 are deleted last, and nil is returned. *)
Example unjoin_cluster2_scenario :
  (unjoin envHealthy false false).1 = None
  /\ Forall (fun ev => match ev with
                       | Api _ o => o = None
                       | Enter _ => True
                       end) (unjoin envHealthy false false).2
  /\ drop 9 (requestsOf (unjoin envHealthy false false).2)
     = [ Build_Request memberServer DELETE Namespaces "" fedNS;
         Build_Request hostServer GET KubefedClusters fedNS "cluster2";
         Build_Request hostServer DELETE Secrets fedNS "cluster2-secret";
         Build_Request hostServer DELETE KubefedClusters fedNS "cluster2" ].
Proof.
  split; [reflexivity|]. split; [|reflexivity].
  vm_compute. repeat constructor.
Qed.

(** C2 at two inputs: a healthy member (deregistration is entered) and a
    member that refuses every delete (it is not, and no secret or
    registration is touched). *)
Lemma C2_deregistration_condition_witness :
  In (Enter fn_deleteKubefedClusterAndSecret) (unjoin envHealthy false false).2
  /\ ~ In (Enter fn_deleteKubefedClusterAndSecret) (unjoin envForbidden false false).2
  /\ Forall teardownEvent (unjoin envForbidden false false).2.
Proof.
  split; [|split].
  - apply (C2_deregistration_condition envHealthy (Some hostCfg) (Some memberCfg)
             fedNS "cluster1" "cluster1" "cluster2" "cluster2" false false
             hostCS hostClient eq_refl eq_refl (or_introl eq_refl)).
    left. exists memberCS. split; [reflexivity|]. split; reflexivity.
  - intros Hin.
    apply (C2_deregistration_condition envForbidden (Some hostCfg) (Some memberCfg)
             fedNS "cluster1" "cluster1" "cluster2" "cluster2" false false
             hostCS hostClient eq_refl eq_refl (or_introl eq_refl)) in Hin.
    destruct Hin as [(cs & Hcs & Hrbac & _)|Hforce]; [|discriminate Hforce].
    injection Hcs as <-. vm_compute in Hrbac. discriminate Hrbac.
  - vm_compute. repeat constructor; discriminate.
Defined.

(** C10 at a member that refuses every delete: nil all the same. *)
Lemma C10_teardown_failure_is_not_returned_witness :
  (unjoin envForbidden false false).1 = None.
Proof.
  exact (C10_teardown_failure_is_not_returned envForbidden (Some hostCfg)
           (Some memberCfg) fedNS "cluster1" "cluster1" "cluster2" "cluster2"
           false false hostCS hostClient eq_refl eq_refl (or_introl eq_refl)).
Defined.

(** C3 with a member context that does not resolve, and with a member
    clientset that cannot be made: without --force the error comes back
    and nothing was requested; with --force the run returns nil after the
    three host-side requests. *)
Lemma C3_force_degradation_witness :
  Run envHealthy (unjoinOpts false false) kubeconfigNoMember []
    = (Some unreachable, [])
  /\ Run envNoMemberClient (unjoinOpts false false) kubeconfig []
     = (Some unreachable, [])
  /\ (Run envHealthy (unjoinOpts true false) kubeconfigNoMember []).1 = None
  /\ requestsOf (Run envHealthy (unjoinOpts true false) kubeconfigNoMember []).2
     = [ Build_Request hostServer GET KubefedClusters fedNS "cluster2";
         Build_Request hostServer DELETE Secrets fedNS "cluster2-secret";
         Build_Request hostServer DELETE KubefedClusters fedNS "cluster2" ].
Proof.
  pose proof (C3_force_degradation envHealthy kubeconfigNoMember
                (unjoinOpts false false) unreachable (or_introl eq_refl)) as Hoff.
  pose proof (C3_force_degradation envHealthy kubeconfigNoMember
                (unjoinOpts true false) unreachable (or_introl eq_refl)) as Hon.
  pose proof (C3_force_degradation envNoMemberClient kubeconfig
                (unjoinOpts false false) unreachable
                (or_intror (ex_intro _ memberCfg (conj eq_refl eq_refl))))
    as Hoff'.
  cbv zeta in Hoff, Hoff', Hon.
  destruct Hoff as [Hoff _]. destruct (Hoff eq_refl) as (Htr & _ & Herr).
  destruct Hoff' as [Hoff' _]. destruct (Hoff' eq_refl) as (Htr' & _ & Herr').
  destruct Hon as [_ Hon].
  destruct (Hon eq_refl (Some hostCfg) hostCS hostClient (conj eq_refl eq_refl)
              eq_refl) as (Hnil & _ & Hreq).
  destruct (Hreq eq_refl registration eq_refl) as (o1 & o2 & Hrun).
  split; [|split; [|split]].
  - apply injective_projections; simpl.
    + exact (Herr (Some hostCfg) hostCS (conj eq_refl eq_refl)).
    + exact Htr.
  - apply injective_projections; simpl.
    + exact (Herr' (Some hostCfg) hostCS (conj eq_refl eq_refl)).
    + exact Htr'.
  - exact Hnil.
  - rewrite Hrun. reflexivity.
Defined.

(** C4 at four members: the namespace cannot be read on the host; it is
    absent on the member (the lookup error comes back, nothing is
    deleted); the lookups succeed and the delete answers NotFound (nil);
    the lookups succeed and the delete is refused (the error comes back). *)
Lemma C4_lookups_fail_closed_witness :
  let start := Enter fn_deleteFedNSFromUnjoinCluster in
  let getH := Api (Build_Request hostServer GET Namespaces "" fedNS) in
  let getM := Api (Build_Request memberServer GET Namespaces "" fedNS) in
  let delM := Api (Build_Request memberServer DELETE Namespaces "" fedNS) in
  let run env :=
    deleteFedNSFromUnjoinCluster env hostCS memberCS fedNS "cluster2" false [] in
  run MoreExamples.envNoHostNS
    = (Some (Wrapf forbidden "Error retrieving namespace %q from host cluster"
               [fedNS]),
       [start; getH (Some forbidden)])
  /\ run envNoMemberNS
     = (Some (Wrapf notFound
                "Error retrieving namespace %q from unjoining cluster %q"
                [fedNS; "cluster2"]),
        [start; getH None; getM (Some notFound)])
  /\ run envGone
     = (None, [start; getH None; getM None; Enter fn_IsPrimaryCluster;
               delM (Some notFound)])
  /\ run envForbidden
     = (Some (Wrapf forbidden
                "Could not delete kubefed namespace %q from unjoining cluster %q"
                [fedNS; "cluster2"]),
        [start; getH None; getM None; Enter fn_IsPrimaryCluster;
         delM (Some forbidden)])
  /\ exists format args,
       (run envNoMemberNS).1 = Some (Wrapf notFound format args).
Proof.
  cbv zeta. split; [|split; [|split; [|split]]].
  - exact (proj1 (C4_lookups_fail_closed MoreExamples.envNoHostNS hostCS
                    memberCS fedNS "cluster2")).
  - exact (proj1 (C4_lookups_fail_closed envNoMemberNS hostCS memberCS fedNS
                    "cluster2")).
  - exact (proj1 (C4_lookups_fail_closed envGone hostCS memberCS fedNS
                    "cluster2")).
  - exact (proj1 (C4_lookups_fail_closed envForbidden hostCS memberCS fedNS
                    "cluster2")).
  - apply (proj1 (proj2 (C4_lookups_fail_closed envNoMemberNS hostCS memberCS
                           fedNS "cluster2"))
             (Build_Request memberServer GET Namespaces "" fedNS) notFound).
    + vm_compute. right; right; left. reflexivity.
    + reflexivity.
Defined.

(** C4, the claim as it stands, fails: the namespace is absent on the
    member (its lookup answers NotFound), and the function returns an
    error, not success. *)
Lemma C4_member_namespace_absent_is_an_error :
  let run := deleteFedNSFromUnjoinCluster envNoMemberNS hostCS memberCS fedNS
               "cluster2" false [] in
  IsNotFound (Some notFound) = true
  /\ run.2 = [ Enter fn_deleteFedNSFromUnjoinCluster;
               Api (Build_Request hostServer GET Namespaces "" fedNS) None;
               Api (Build_Request memberServer GET Namespaces "" fedNS)
                   (Some notFound) ]
  /\ run.1 = Some (Wrapf notFound
                     "Error retrieving namespace %q from unjoining cluster %q"
                     [fedNS; "cluster2"])
  /\ run.1 <> None.
Proof. cbv zeta. repeat split; try reflexivity. discriminate. Qed.

(** C5 on a dry run against a healthy member: deregistration is entered. *)
Lemma C5_dry_run_witness :
  In (Enter fn_deleteKubefedClusterAndSecret) (unjoin envHealthy false true).2.
Proof.
  apply (proj2 (proj2 (proj2 (proj2 (proj2
           (C5_dry_run envHealthy (Some hostCfg) (Some memberCfg) fedNS
              "cluster1" "cluster1" "cluster2" "cluster2" false)))))
           hostCS hostClient eq_refl eq_refl (or_introl eq_refl)).
  left. by eexists.
Defined.

(** C5, the claim as it stands, fails: on a dry run against a healthy
    member the primary-cluster check is never reached, and no namespace is
    looked up, while the same run off dry run reaches it. *)
Lemma C5_dry_run_skips_primary_check :
  (unjoin envHealthy false true).2
    = [ Enter fn_deleteRBACResources;
        Enter fn_deleteClusterRoleAndBinding;
        Enter fn_deleteServiceAccount;
        Enter fn_deleteFedNSFromUnjoinCluster;
        Enter fn_deleteKubefedClusterAndSecret ]
  /\ ~ In (Enter fn_IsPrimaryCluster) (unjoin envHealthy false true).2
  /\ requestsOf (unjoin envHealthy false true).2 = []
  /\ In (Enter fn_IsPrimaryCluster) (unjoin envHealthy false false).2.
Proof.
  split; [reflexivity|]. split; [|split; [reflexivity|]].
  - vm_compute. intuition discriminate.
  - vm_compute. do 13 right. left. reflexivity.
Qed.

(** C8 without the cluster name: fatal, nothing requested. *)
Lemma C8_validation_witness :
  is_Some (Complete (unjoinOpts false false) []).1
  /\ NewCmdUnjoin_Run envHealthy (unjoinOpts false false) kubeconfig [] []
     = (Fatal (New "NAME is required"), []).
Proof.
  pose proof (C8_validation envHealthy kubeconfig (unjoinOpts false false) [])
    as [Hiff Hfatal].
  split.
  - apply Hiff. by left.
  - by apply Hfatal.
Defined.

(** C9 at a member that refuses every delete: all seven are issued, and
    the result is false. *)
Lemma C9_best_effort_rbac_witness :
  let run := deleteRBACResources envForbidden memberCS fedNS "cluster2"
               "cluster1" false [] in
  List.length (requestsOf run.2) = 7%nat /\ run.1 = false.
Proof.
  pose proof (C9_best_effort_rbac envForbidden memberCS fedNS "cluster2"
                "cluster1") as [Hreq Hfail].
  cbv zeta in *. split.
  - rewrite Hreq. reflexivity.
  - apply (Hfail (Build_Request memberServer DELETE ClusterRoles ""
                    "kubefed-controller-manager:cluster2-cluster1") forbidden).
    + vm_compute. do 3 right. left. reflexivity.
    + discriminate.
    + reflexivity.
Defined.

(** C6 at the three probes of the specification: body "OK", a transport
    error, body "degraded". *)
Lemma C6_health_classification_witness :
  let conditions m :=
    kubefedcluster.Conditions
      (kubefedcluster.GetClusterHealthStatus kubefedcluster.EqualFold_ascii m 0%Z) in
  let shape c := (kubefedcluster.Type_ c, kubefedcluster.Status c) in
  shape <$> conditions (member "OK" None [])
    = [(kubefedcluster.ClusterReady, kubefedcluster.ConditionTrue)]
  /\ shape <$> conditions (member "" (Some unreachable) [])
     = [(kubefedcluster.ClusterOffline, kubefedcluster.ConditionTrue)]
  /\ shape <$> conditions (member "degraded" None [])
     = [(kubefedcluster.ClusterReady, kubefedcluster.ConditionFalse);
        (kubefedcluster.ClusterOffline, kubefedcluster.ConditionFalse)].
Proof.
  pose proof (kubefedcluster_proofs.C6_health_classification
                kubefedcluster.EqualFold_ascii (member "OK" None []) 0%Z)
    as (_ & Hready & _).
  pose proof (kubefedcluster_proofs.C6_health_classification
                kubefedcluster.EqualFold_ascii (member "" (Some unreachable) []) 0%Z)
    as (Hoffline & _ & _).
  pose proof (kubefedcluster_proofs.C6_health_classification
                kubefedcluster.EqualFold_ascii (member "degraded" None []) 0%Z)
    as (_ & _ & Hnot).
  cbv beta zeta in *.
  destruct (Hready eq_refl eq_refl) as (c & Hc & Ht & Hs).
  destruct (Hoffline (ex_intro _ unreachable eq_refl)) as (c' & Hc' & Ht' & Hs').
  destruct (Hnot eq_refl eq_refl) as (c1 & c2 & Hcs & Ht1 & Hs1 & Ht2 & Hs2).
  rewrite Hc, Hc', Hcs. cbn [fmap list_fmap].
  rewrite Ht, Hs, Ht', Hs', Ht1, Hs1, Ht2, Hs2. repeat split.
Defined.

(** C7 at the three nodes of the specification: zones a, a, b and regions
    r1, r2, r2 give zones a, b and region r1. *)
Lemma C7_zones_and_region_witness :
  let result := kubefedcluster.GetClusterZones (member "ok" None threeNodes) in
  result = (["a"; "b"], "r1", None)
  /\ ("a" ∈ result.1.1) /\ ("b" ∈ result.1.1) /\ ("r2" ∉ result.1.1)
  /\ result.1.2 = "r1".
Proof.
  pose proof (kubefedcluster_proofs.C7_zones_and_region
                (member "ok" None threeNodes) threeNodes eq_refl)
    as (_ & _ & _ & Hzones & Hregion).
  cbv zeta in *. split; [reflexivity|]. split; [|split; [|split]].
  - apply Hzones. split; [discriminate|].
    exists (node "a" "r1"). split; [by left | reflexivity].
  - apply Hzones. split; [discriminate|].
    exists (node "b" "r2"). split; [by do 2 right; left | reflexivity].
  - intros Hin. apply Hzones in Hin as (_ & n & Hn & Hl).
    unfold threeNodes in Hn.
    repeat (apply elem_of_cons in Hn as [->|Hn]; [by vm_compute in Hl|]).
    by inversion Hn.
  - rewrite Hregion. reflexivity.
Defined.

End Instances.


(** * Further properties of the code *)

(** ** The managed label *)

Module managedlabel_proofs.
Import managedlabel.

(** The label of an object under a key, a nil map holding none. *)
Definition labelOf (obj : Unstructured) (key : string) : option string :=
  GetLabels obj ≫= (.!! key).

Lemma index_true_lookup (labels : gmap string string) :
  index labels ManagedByKubeFedLabelKey = ManagedByKubeFedLabelValue
  <-> labels !! ManagedByKubeFedLabelKey = Some ManagedByKubeFedLabelValue.
Proof.
  unfold index. destruct (labels !! ManagedByKubeFedLabelKey) as [v|]; simpl.
  - split; [by intros -> | by intros [= ->]].
  - split; [discriminate | discriminate].
Qed.

Lemma RemoveManagedLabel_noop (obj : Unstructured) :
  HasManagedLabel obj = false -> RemoveManagedLabel obj = obj.
Proof.
  destruct obj as [[labels|]]; unfold HasManagedLabel, RemoveManagedLabel;
    simpl; [|done].
  intros Hhas. apply bool_decide_eq_false in Hhas.
  by rewrite bool_decide_eq_true_2.
Qed.

Lemma RemoveManagedLabel_not_has (obj : Unstructured) :
  HasManagedLabel (RemoveManagedLabel obj) = false.
Proof.
  destruct (HasManagedLabel obj) eqn:Hhas.
  - destruct obj as [[labels|]]; unfold HasManagedLabel, RemoveManagedLabel in *;
      simpl in *; [|done].
    apply bool_decide_eq_true in Hhas.
    rewrite bool_decide_eq_false_2 by (by intros ?). simpl.
    unfold index. by rewrite lookup_delete_eq.
  - by rewrite RemoveManagedLabel_noop.
Qed.

(** X1. After [AddManagedLabel] an object has the managed label and is no
    longer marked managed:false, whatever its labels were before: nil,
    empty, or carrying the key with any value. *)
Theorem X1_AddManagedLabel_marks (obj : Unstructured) :
  HasManagedLabel (AddManagedLabel obj) = true
  /\ CheckManagedLabel (AddManagedLabel obj) = false
  /\ labelOf (AddManagedLabel obj) ManagedByKubeFedLabelKey
     = Some ManagedByKubeFedLabelValue.
Proof.
  unfold HasManagedLabel, CheckManagedLabel, labelOf, AddManagedLabel, index.
  simpl. rewrite lookup_insert_eq. done.
Qed.

(** X2. After [RemoveManagedLabel] an object does not have the managed
    label.  The function deletes the key only when its value is "true": an
    object that carries the key with another value, managed:false
    included, is returned as it was. *)
Theorem X2_RemoveManagedLabel_unmarks (obj : Unstructured) :
  HasManagedLabel (RemoveManagedLabel obj) = false
  /\ CheckManagedLabel (RemoveManagedLabel obj) = CheckManagedLabel obj
  /\ (HasManagedLabel obj = false -> RemoveManagedLabel obj = obj)
  /\ (HasManagedLabel obj = true ->
      labelOf (RemoveManagedLabel obj) ManagedByKubeFedLabelKey = None).
Proof.
  split; [apply RemoveManagedLabel_not_has|].
  split; [|split; [apply RemoveManagedLabel_noop|]].
  - destruct (HasManagedLabel obj) eqn:Hhas;
      [|by rewrite RemoveManagedLabel_noop].
    destruct obj as [[labels|]]; unfold HasManagedLabel, CheckManagedLabel,
      RemoveManagedLabel in *; simpl in *; [|done].
    apply bool_decide_eq_true in Hhas.
    rewrite bool_decide_eq_false_2 by (by intros ?). simpl.
    unfold index. rewrite lookup_delete_eq. simpl.
    unfold index in Hhas. by rewrite Hhas.
  - destruct obj as [[labels|]]; unfold HasManagedLabel, RemoveManagedLabel,
      labelOf; simpl; [|done].
    intros Hhas. apply bool_decide_eq_true in Hhas.
    rewrite bool_decide_eq_false_2 by (by intros ?). simpl.
    apply lookup_delete_eq.
Qed.

(** X3. Neither function touches another label: under every other key
    the object holds after the call what it held before (a nil label map
    counting as empty). *)
Theorem X3_managed_label_frame (obj : Unstructured) (key : string) :
  key <> ManagedByKubeFedLabelKey ->
  labelOf (AddManagedLabel obj) key = labelOf obj key
  /\ labelOf (RemoveManagedLabel obj) key = labelOf obj key.
Proof.
  intros Hkey. destruct obj as [[labels|]]; unfold labelOf, AddManagedLabel,
    RemoveManagedLabel; simpl.
  - split; [by rewrite lookup_insert_ne|].
    case_bool_decide; simpl; [done | by rewrite lookup_delete_ne].
  - split; [by rewrite lookup_insert_ne | done].
Qed.

(** X4. Round trips.  On an object that has the managed label, removing
    and adding it again gives the object back.  On an object without the
    key, adding and removing gives back the same labels, a nil map coming
    back as an empty one.  Both functions are idempotent. *)
Theorem X4_managed_label_round_trips (obj : Unstructured) :
  (HasManagedLabel obj = true ->
     AddManagedLabel (RemoveManagedLabel obj) = obj)
  /\ (labelOf obj ManagedByKubeFedLabelKey = None ->
      GetLabels (RemoveManagedLabel (AddManagedLabel obj))
      = Some (default ∅ (GetLabels obj)))
  /\ AddManagedLabel (AddManagedLabel obj) = AddManagedLabel obj
  /\ RemoveManagedLabel (RemoveManagedLabel obj) = RemoveManagedLabel obj.
Proof.
  split; [|split; [|split]].
  - destruct obj as [[labels|]]; unfold HasManagedLabel; simpl; [|done].
    intros Hhas. apply bool_decide_eq_true in Hhas.
    unfold RemoveManagedLabel, AddManagedLabel, SetLabels. simpl.
    rewrite bool_decide_eq_false_2 by (by intros ?). simpl.
    f_equal. f_equal. apply insert_delete_id. by apply index_true_lookup.
  - intros Hnone.
    unfold RemoveManagedLabel, AddManagedLabel, SetLabels, GetLabels, index.
    simpl. rewrite lookup_insert_eq. simpl. f_equal.
    destruct obj as [[labels|]]; simpl in *; by apply delete_insert_id.
  - unfold AddManagedLabel, SetLabels. simpl. by rewrite insert_insert_eq.
  - apply RemoveManagedLabel_noop, RemoveManagedLabel_not_has.
Qed.

End managedlabel_proofs.

(** ** [NewClusterClientSet] *)

Module clusterclient_proofs.
Import kubefedcluster clusterclient.

(** X5. [NewClusterClientSet] returns the error of
    [util.BuildClusterConfig] when there is one; it panics when that
    function returns neither a configuration nor an error, the nil test on
    the configuration coming after the write of its timeout; and a client
    it returns comes without error, bears the cluster's name, has its
    kube client set, and was built from the configuration with the
    caller's timeout and the user agent [UserAgentName]. *)
Theorem X5_NewClusterClientSet_outcomes (lib : Lib) (c : KubeFedCluster)
    (client : Client) (fedNamespace : string) (timeout : Z) :
  let built := util_BuildClusterConfig lib c client fedNamespace in
  let result := NewClusterClientSet lib c client fedNamespace timeout in
  (forall e, built.2 = Some e -> result = Returns (None, Some e))
  /\ (built = (None, None) -> result = Panics)
  /\ (forall cc err,
        result = Returns (Some cc, err) ->
        err = None /\ cc_clusterName cc = Name c /\ is_Some (usable cc)
        /\ exists cfg,
             built = (Some cfg, None)
             /\ kubeclientset_NewForConfigOrDie lib
                  (restclient_AddUserAgent lib
                     {| Host := Host cfg; UserAgent := UserAgent cfg;
                        Timeout := timeout |} UserAgentName)
                = Returns (cc_kubeClient cc)).
Proof.
  intros built result. subst result. unfold NewClusterClientSet. fold built.
  destruct built as [[cfg|] [e|]]; simpl.
  - split; [by intros ? [= ->]|]. split; [done|]. by intros cc err [=].
  - split; [done|]. split; [done|]. intros cc err.
    destruct (kubeclientset_NewForConfigOrDie lib _) as [[k|]|] eqn:Hk; simpl;
      intros [= <- <-]. simpl. split; [done|]. split; [done|].
    split; [by eexists|]. by exists cfg.
  - split; [by intros ? [= ->]|]. split; [done|]. by intros cc err [=].
  - split; [done|]. split; [done|]. by intros cc err [=].
Qed.

End clusterclient_proofs.

(** ** More on the unjoin flow *)

(** Requests on the host's record of the member: the secret and the
    registration. *)
Definition hostRecordEvent (ev : Event) : Prop :=
  match ev with
  | Enter _ => False
  | Api r _ => r_kind r = Secrets \/ r_kind r = KubefedClusters
  end.

Section UnjoinFurther.
Context (env : Env).

(** X6. When both namespace lookups succeed, [deleteFedNSFromUnjoinCluster]
    turns on the primary test alone: on the primary cluster it returns nil
    after the two lookups, with no delete; otherwise it issues the delete
    of the namespace on the member, and returns nil exactly when that
    delete succeeded or answered NotFound. *)
Theorem X6_primary_cluster_guard hostCS cs kubefedNamespace unjoiningClusterName
    hostNS memberNS :
  let start := Enter fn_deleteFedNSFromUnjoinCluster in
  let getH := Build_Request (cs_server hostCS) GET Namespaces "" kubefedNamespace in
  let getM := Build_Request (cs_server cs) GET Namespaces "" kubefedNamespace in
  let delM := Build_Request (cs_server cs) DELETE Namespaces "" kubefedNamespace in
  let looked := [start; Api getH None; Api getM None; Enter fn_IsPrimaryCluster] in
  let run := deleteFedNSFromUnjoinCluster env hostCS cs kubefedNamespace
               unjoiningClusterName false [] in
  server_GetNamespace env [start] getH = inl hostNS ->
  server_GetNamespace env [start; Api getH None] getM = inl memberNS ->
  if IsPrimaryCluster hostNS memberNS
  then run = (None, looked)
  else run.2 = looked ++ [Api delM (server_Delete env looked delM)]
       /\ (run.1 = None <-> tolerated (server_Delete env looked delM) = true).
Proof.
  intros start getH getM delM looked run HH HM. subst run.
  unfold deleteFedNSFromUnjoinCluster, bind, enter, GetNamespace, Delete, ret.
  simpl. fold start getH. rewrite HH. simpl. fold getM. rewrite HM. simpl.
  fold looked. destruct (IsPrimaryCluster hostNS memberNS); [done|].
  simpl. fold delM. unfold tolerated.
  destruct (server_Delete env looked delM) as [[[]| |]|]; simpl;
    (split; [reflexivity|]); split; try done; try discriminate.
Qed.

(** X7. [deleteKubefedClusterAndSecret] without dry run: when the
    registration cannot be read, whatever the error, it stops there and
    deletes nothing; when it is read, the secret named by its [SecretRef]
    is deleted and then the registration itself, the second delete being
    issued whatever the first one answered. *)
Theorem X7_deregistration_best_effort hostCS client kubefedNamespace
    unjoiningClusterName tr :
  let start := Enter fn_deleteKubefedClusterAndSecret in
  let get := Build_Request (gc_server client) GET KubefedClusters
               kubefedNamespace unjoiningClusterName in
  let run := deleteKubefedClusterAndSecret env hostCS client kubefedNamespace
               unjoiningClusterName false tr in
  match server_GetKubefedCluster env (tr ++ [start]) get with
  | inr e => run.2 = tr ++ [start; Api get (Some e)]
  | inl fedCluster =>
      exists o1 o2,
        run.2 = tr ++ [ start; Api get None;
                        Api (Build_Request (cs_server hostCS) DELETE Secrets
                               kubefedNamespace
                               (kc_Spec_SecretRef_Name fedCluster)) o1;
                        Api (Build_Request (gc_server client) DELETE
                               KubefedClusters (kc_Namespace fedCluster)
                               (kc_Name fedCluster)) o2 ]
  end.
Proof.
  intros start get run. subst run.
  unfold deleteKubefedClusterAndSecret, bind, enter, GetKubefedCluster, Delete, ret.
  simpl. fold start get.
  destruct (server_GetKubefedCluster env (tr ++ [start]) get) as [fc|e]; simpl.
  - eexists _, _. rewrite <- !app_assoc. reflexivity.
  - rewrite <- !app_assoc. reflexivity.
Qed.

Context (hostConfig clusterConfig : option rest_Config).
Context (kubefedNamespace hostClusterName hostClusterContext
         unjoiningClusterContext unjoiningClusterName : string).
Context (forceDeletion dryRun : bool).

Let run : option error * Trace :=
  UnjoinCluster env hostConfig clusterConfig kubefedNamespace hostClusterName
    hostClusterContext unjoiningClusterContext unjoiningClusterName
    forceDeletion dryRun [].

(** X8. A failure to build the host clientset or the generic host client
    ends [UnjoinCluster] with that error before any request is issued, also
    under [forceDeletion]: force overrides failures of the member side
    only. *)
Theorem X8_host_failure_is_fatal e :
  util_HostClientset env hostConfig = inr e
  \/ (exists hostClientset, util_HostClientset env hostConfig = inl hostClientset)
     /\ ((memberBuild env clusterConfig).2 = None \/ forceDeletion = true)
     /\ genericclient_New env hostConfig = inr e ->
  run = (Some e, []).
Proof.
  unfold run, UnjoinCluster, memberBuild.
  intros [Hh | ((hcs & Hh) & Hm & Hc)].
  - by rewrite Hh.
  - rewrite Hh.
    set (built := match clusterConfig with
                  | Some cfg => util_ClusterClientset env cfg
                  | None => (None, None)
                  end) in *.
    assert (notNil built.2 && negb forceDeletion = false) as ->.
    { destruct Hm as [-> | ->]; [done | by rewrite andb_false_r]. }
    by rewrite Hc.
Qed.

(** X9. In every run of [UnjoinCluster] the member-side teardown comes
    first and the host-side deregistration, if any, last: the trace splits
    into teardown events followed either by nothing or by the entry of
    [deleteKubefedClusterAndSecret] and requests on the secret and the
    registration only. *)
Theorem X9_teardown_precedes_deregistration :
  exists teardown deregistration,
    run.2 = teardown ++ deregistration
    /\ Forall teardownEvent teardown
    /\ (deregistration = []
        \/ exists requests,
             deregistration = Enter fn_deleteKubefedClusterAndSecret :: requests
             /\ Forall hostRecordEvent requests).
Proof.
  assert (forall hcs client tr,
            exists requests,
              (deleteKubefedClusterAndSecret env hcs client kubefedNamespace
                 unjoiningClusterName dryRun tr).2
              = tr ++ Enter fn_deleteKubefedClusterAndSecret :: requests
              /\ Forall hostRecordEvent requests) as Hdereg.
  { intros hcs client tr.
    destruct (deleteKubefedClusterAndSecret_spec env hcs client
                kubefedNamespace unjoiningClusterName dryRun tr)
      as (evs & -> & H).
    destruct dryRun; [subst; by exists []|].
    destruct H as [(e & ->)|(fc & o1 & o2 & ->)]; eexists; (split; [reflexivity|]);
      repeat (constructor; [simpl; by auto|]); constructor. }
  destruct (util_HostClientset env hostConfig) as [hcs|e] eqn:Hh;
    [|exists [], []; unfold run, UnjoinCluster; rewrite Hh; simpl; by auto].
  destruct (notNil (memberBuild env clusterConfig).2 && negb forceDeletion)
    eqn:Hab.
  { exists [], []. unfold run, UnjoinCluster. rewrite Hh.
    unfold memberBuild in Hab. rewrite Hab. simpl. auto. }
  destruct (genericclient_New env hostConfig) as [client|e] eqn:Hc.
  2:{ exists [], []. unfold run, UnjoinCluster. rewrite Hh.
      unfold memberBuild in Hab. rewrite Hab, Hc. simpl. auto. }
  assert ((memberBuild env clusterConfig).2 = None \/ forceDeletion = true) as Hm.
  { destruct (memberBuild env clusterConfig).2, forceDeletion; simpl in Hab;
      auto; discriminate. }
  unfold run.
  rewrite (UnjoinCluster_past_clients _ _ _ _ _ _ _ _ _ _ _ _ Hh Hc Hm).
  destruct (memberBuild env clusterConfig).1 as [cs|]; cbv zeta.
  - pose proof (teardown_trace env kubefedNamespace hostClusterName
                  unjoiningClusterName dryRun hcs cs) as Htd.
    cbv zeta in Htd.
    set (rbac := deleteRBACResources env cs _ _ _ _ []) in *.
    set (nsd := deleteFedNSFromUnjoinCluster env hcs cs _ _ _ _) in *.
    destruct ((if notNil nsd.1 then false else rbac.1) || forceDeletion); simpl.
    + destruct (Hdereg hcs client nsd.2) as (requests & -> & Hreq).
      exists nsd.2, (Enter fn_deleteKubefedClusterAndSecret :: requests).
      split; [done|]. split; [done|]. right. by exists requests.
    + exists nsd.2, []. rewrite app_nil_r. auto.
  - destruct forceDeletion; simpl.
    + destruct (Hdereg hcs client []) as (requests & -> & Hreq).
      exists [], (Enter fn_deleteKubefedClusterAndSecret :: requests).
      split; [done|]. split; [constructor|]. right. by exists requests.
    + exists [], []. auto.
Qed.

(** X10. Without a member client and without [forceDeletion],
    [UnjoinCluster] returns nil although it did nothing: no request is
    issued, and the registration stays on the host. *)
Theorem X10_no_member_client_no_force hostClientset client :
  util_HostClientset env hostConfig = inl hostClientset ->
  genericclient_New env hostConfig = inl client ->
  memberBuild env clusterConfig = (None, None) ->
  forceDeletion = false ->
  run = (None, []).
Proof.
  intros Hh Hc Hm Hf. unfold run.
  rewrite (UnjoinCluster_past_clients _ _ _ _ _ _ _ _ _ _ _ _ Hh Hc
             (or_introl (f_equal snd Hm))).
  by rewrite Hm, Hf.
Qed.

End UnjoinFurther.

(** Which client a request of the unjoin flow goes through: role,
    binding and service-account requests are deletes on the member; the
    namespace is read on the host and on the member and deleted on the
    member only; the secret is deleted through the host clientset and the
    registration is read and deleted through the generic host client. *)
Definition routed (hostCS : Clientset) (client : Client) (cs : Clientset)
    (ev : Event) : Prop :=
  match ev with
  | Enter _ => True
  | Api r _ =>
      match r_kind r with
      | Secrets => r_verb r = DELETE /\ r_server r = cs_server hostCS
      | KubefedClusters => r_server r = gc_server client
      | Namespaces =>
          match r_verb r with
          | GET => r_server r = cs_server hostCS \/ r_server r = cs_server cs
          | DELETE => r_server r = cs_server cs
          end
      | _ => r_verb r = DELETE /\ r_server r = cs_server cs
      end
  end.

Section Routing.
Context (env : Env) (hostCS : Clientset) (client : Client) (cs : Clientset).

Lemma deleteRBACResources_routed ns ucn hcn dryRun :
  emits (routed hostCS client cs) (deleteRBACResources env cs ns ucn hcn dryRun).
Proof.
  destruct dryRun.
  - eapply spec_weaken; [apply deleteRBACResources_dry|].
    intros b evs [_ ->]. by repeat constructor.
  - eapply spec_weaken; [apply deleteRBACResources_spec|].
    intros b evs (o1 & o2 & o3 & o4 & o5 & o6 & o7 & -> & _).
    by repeat constructor.
Qed.

Lemma deleteFedNSFromUnjoinCluster_routed ns ucn dryRun :
  emits (routed hostCS client cs)
        (deleteFedNSFromUnjoinCluster env hostCS cs ns ucn dryRun).
Proof.
  destruct dryRun.
  - eapply spec_weaken; [apply deleteFedNSFromUnjoinCluster_dry|].
    intros b evs [_ ->]. by repeat constructor.
  - eapply spec_weaken; [apply deleteFedNSFromUnjoinCluster_spec|].
    intros b evs [(e & -> & _)|[(e & -> & _)|[(-> & _)|[(o & -> & _)|(e & -> & _)]]]];
      repeat (constructor; [simpl; by auto|]); constructor.
Qed.

Lemma deleteKubefedClusterAndSecret_routed ns ucn dryRun :
  emits (routed hostCS client cs)
        (deleteKubefedClusterAndSecret env hostCS client ns ucn dryRun).
Proof.
  eapply spec_weaken; [apply deleteKubefedClusterAndSecret_spec|].
  intros b evs H. destruct dryRun; [subst; by repeat constructor|].
  destruct H as [(e & ->)|(fc & o1 & o2 & ->)]; by repeat constructor.
Qed.

(** X16. Every request of [UnjoinCluster] goes through the client meant
    for it: roles, bindings and the service account are only ever deleted
    on the member; the kubefed namespace is never deleted through the host
    clientset; the secret and the registration are only touched through
    the host's clients. *)
Theorem X16_requests_are_routed hostConfig clusterConfig kubefedNamespace
    hostClusterName hostClusterContext unjoiningClusterContext
    unjoiningClusterName forceDeletion dryRun :
  util_HostClientset env hostConfig = inl hostCS ->
  genericclient_New env hostConfig = inl client ->
  (memberBuild env clusterConfig).1 = Some cs
  \/ (memberBuild env clusterConfig).1 = None ->
  Forall (routed hostCS client cs)
    (UnjoinCluster env hostConfig clusterConfig kubefedNamespace
       hostClusterName hostClusterContext unjoiningClusterContext
       unjoiningClusterName forceDeletion dryRun []).2.
Proof.
  intros Hh Hc Hcs.
  destruct (notNil (memberBuild env clusterConfig).2 && negb forceDeletion)
    eqn:Hab.
  { unfold UnjoinCluster. rewrite Hh. unfold memberBuild in Hab.
    rewrite Hab. constructor. }
  assert ((memberBuild env clusterConfig).2 = None \/ forceDeletion = true) as Hm.
  { destruct (memberBuild env clusterConfig).2, forceDeletion; simpl in Hab;
      auto; discriminate. }
  rewrite (UnjoinCluster_past_clients _ _ _ _ _ _ _ _ _ _ _ _ Hh Hc Hm).
  destruct Hcs as [-> | ->]; cbv zeta.
  - assert (Forall (routed hostCS client cs)
              (deleteFedNSFromUnjoinCluster env hostCS cs kubefedNamespace
                 unjoiningClusterName dryRun
                 (deleteRBACResources env cs kubefedNamespace
                    unjoiningClusterName hostClusterName dryRun []).2).2) as Htd.
    { apply emits_from; [apply deleteFedNSFromUnjoinCluster_routed|].
      apply emits_run, deleteRBACResources_routed. }
    destruct (_ || forceDeletion); simpl; [|done].
    by apply emits_from; [apply deleteKubefedClusterAndSecret_routed|].
  - destruct forceDeletion; simpl; [|constructor].
    apply emits_run, deleteKubefedClusterAndSecret_routed.
Qed.

End Routing.

(** ** More on the command line *)

(** X11. Arguments after the first are ignored by [Complete], whatever
    the outcome: the error and the receiver it leaves are those of the
    first argument alone.  When [Complete] accepts, the cluster name is the
    first argument, the cluster context is the one given or, when none was
    given, the cluster name, and nothing else of the options changes. *)
Theorem X11_Complete_result j a rest :
  Complete j (a :: rest) = Complete j [a]
  /\ (forall j',
        Complete j (a :: rest) = (None, j') ->
        ClusterName (Common j') = a
        /\ ClusterContext (Common j')
           = (if bool_decide (ClusterContext (Common j) = "") then a
              else ClusterContext (Common j))
        /\ HostClusterName (Common j') = HostClusterName (Common j)
        /\ Global j' = Global j
        /\ forceDeletion j' = forceDeletion j).
Proof.
  split; [reflexivity|]. intros j'.
  unfold Complete, SetName. simpl.
  destruct (bool_decide (ClusterContext (Common j) = "")); simpl;
    destruct (_ && _); try discriminate;
    destruct (_ && _); try discriminate;
    intros [= <-]; done.
Qed.

(** X12. [Complete] and [Run] together: once [Complete] has accepted the
    options, the host cluster name that [Run] hands to [UnjoinCluster] for
    naming the RBAC objects (the override when set, the host cluster
    context otherwise) contains neither ':' nor '/'. *)
Theorem X12_validated_host_name env config j args j' :
  Complete j args = (None, j') ->
  let g := Global j' in
  let c := Common j' in
  let name := if bool_decide (HostClusterName c <> "") then HostClusterName c
              else HostClusterContext g in
  ~ In ":"%char (list_ascii_of_string name)
  /\ ~ In "/"%char (list_ascii_of_string name)
  /\ (forall hostConfig clusterConfig,
        HostConfig config (HostClusterContext g) (Kubeconfig g)
          = (hostConfig, None) ->
        ClusterConfig config (ClusterContext c) (Kubeconfig g)
          = (clusterConfig, None) ->
        Run env j' config []
        = UnjoinCluster env hostConfig clusterConfig (KubefedNamespace g) name
            (HostClusterContext g) (ClusterContext c) (ClusterName c)
            (forceDeletion j') (DryRun g) []).
Proof.
  intros Hok g c name.
  assert (strings.ContainsAny name ":/" = false) as Hname.
  { subst name g c. revert Hok. unfold Complete, SetName.
    destruct args as [|a rest]; simpl; [discriminate|].
    destruct (bool_decide (ClusterContext (Common j) = "")); simpl;
      (destruct (bool_decide (HostClusterName (Common j) <> "")) eqn:Hne; simpl;
       [ destruct (strings.ContainsAny (HostClusterName (Common j)) ":/") eqn:Hc;
         simpl; [discriminate|];
         apply bool_decide_eq_true in Hne;
         rewrite (bool_decide_eq_false_2 _ Hne); simpl;
         intros [= <-]; simpl; by rewrite (bool_decide_eq_true_2 _ Hne)
       | apply bool_decide_eq_false in Hne;
         assert (HostClusterName (Common j) = "") as Hov
           by (by destruct (decide (HostClusterName (Common j) = "")));
         rewrite (bool_decide_eq_true_2 _ Hov); simpl;
         destruct (strings.ContainsAny (HostClusterContext (Global j)) ":/") eqn:Hc;
         [discriminate|];
         intros [= <-]; simpl; by rewrite (bool_decide_eq_false_2 _ Hne) ]). }
  split; [|split].
  - intros Hin.
    assert (strings.ContainsAny name ":/" = true) as Ht
      by (apply ContainsAny_colon_slash; by left).
    congruence.
  - intros Hin.
    assert (strings.ContainsAny name ":/" = true) as Ht
      by (apply ContainsAny_colon_slash; by right).
    congruence.
  - intros hostConfig clusterConfig Hh Hm. unfold Run. fold g c.
    rewrite Hh, Hm. simpl. reflexivity.
Qed.

(** ** More on health and zones *)

Module kubefedcluster_more.
Import kubefedcluster kubefedcluster_proofs.

#[local] Instance ConditionStatus_eq_dec : EqDecision ConditionStatus.
Proof. solve_decision. Defined.

(** X13. Whatever the probe answers, [GetClusterHealthStatus] returns one
    or two conditions, of distinct types, at most one of them with status
    True, each with both its time stamps set to the time of the probe; and
    it leaves the zones and the region of the status unset. *)
Theorem X13_health_status_shape (strings_EqualFold : string -> string -> bool)
    (self : ClusterClient) (currentTime : Time) :
  let status := GetClusterHealthStatus strings_EqualFold self currentTime in
  let conditions := Conditions status in
  (1 <= List.length conditions <= 2)%nat
  /\ NoDup (Type_ <$> conditions)
  /\ (List.length (filter (fun c => Status c = ConditionTrue) conditions) <= 1)%nat
  /\ Forall (fun c => LastProbeTime c = currentTime
                      /\ LastTransitionTime c = currentTime) conditions
  /\ Zones status = [] /\ Region status = None.
Proof.
  unfold GetClusterHealthStatus.
  destruct (Get_AbsPath_Do_Raw (kubeClient self) "/healthz") as [body [e|]];
    simpl; [|destruct (strings_EqualFold body "ok"); simpl];
    (split; [lia|]); (split; [repeat (constructor;
                      [rewrite ?elem_of_cons, ?elem_of_nil; intuition discriminate|]);
             constructor|]);
    (split; [vm_compute; lia|]); (split; [by repeat constructor|]); done.
Qed.

(** X14. The zones [GetClusterZones] returns do not depend on the order
    in which the nodes are listed. *)
Theorem X14_zones_ignore_listing_order (self self' : ClusterClient)
    (nodes nodes' : list Node) :
  Nodes_List (kubeClient self) = (nodes, None) ->
  Nodes_List (kubeClient self') = (nodes', None) ->
  nodes ≡ₚ nodes' ->
  (GetClusterZones self).1.1 = (GetClusterZones self').1.1.
Proof.
  intros Hl Hl' Hp. unfold GetClusterZones. rewrite Hl, Hl'.
  destruct (zonesLoop 0 nodes ∅ "") as [zones region] eqn:Hz.
  destruct (zonesLoop 0 nodes' ∅ "") as [zones' region'] eqn:Hz'. simpl.
  f_equal. apply set_eq. intros z.
  replace zones with (zonesLoop 0 nodes ∅ "").1 by (by rewrite Hz).
  replace zones' with (zonesLoop 0 nodes' ∅ "").1 by (by rewrite Hz').
  rewrite !zonesLoop_zones. setoid_rewrite Hp. done.
Qed.

(** X15. [getZoneNameForNode] and [getRegionNameForNode] return the value
    of their label, and the empty string when the node does not carry it,
    in whatever order the loop meets the labels of the node. *)
Theorem X15_label_lookup_ignores_iteration_order (node : Node)
    (kvs : list (string * string)) :
  kvs ≡ₚ map_to_list (Labels node) ->
  rangeFind LabelZoneFailureDomain kvs = getZoneNameForNode node
  /\ rangeFind LabelZoneRegion kvs = getRegionNameForNode node
  /\ getZoneNameForNode node = default "" (Labels node !! LabelZoneFailureDomain)
  /\ getRegionNameForNode node = default "" (Labels node !! LabelZoneRegion).
Proof.
  intros Hp.
  rewrite getZoneNameForNode_lookup, getRegionNameForNode_lookup.
  rewrite !(rangeFind_lookup _ (Labels node) kvs) by done. done.
Qed.

End kubefedcluster_more.

(** * The further properties at concrete inputs *)

Module MoreInstances.
Import Example MoreExamples.

(** X3 on a managed object with another label. *)
Lemma X3_managed_label_frame_witness :
  managedlabel_proofs.labelOf (managedlabel.AddManagedLabel plainObj) "app"
    = Some "web"
  /\ managedlabel_proofs.labelOf (managedlabel.RemoveManagedLabel managedObj) "app"
     = Some "web".
Proof.
  destruct (managedlabel_proofs.X3_managed_label_frame plainObj "app")
    as [Hadd _]; [discriminate|].
  destruct (managedlabel_proofs.X3_managed_label_frame managedObj "app")
    as [_ Hremove]; [discriminate|].
  rewrite Hadd, Hremove. split; reflexivity.
Defined.

(** X4 on a managed object, and on an object without labels: its nil map
    comes back empty. *)
Lemma X4_managed_label_round_trips_witness :
  managedlabel.AddManagedLabel (managedlabel.RemoveManagedLabel managedObj)
    = managedObj
  /\ managedlabel.GetLabels
       (managedlabel.RemoveManagedLabel (managedlabel.AddManagedLabel bareObj))
     = Some ∅
  /\ managedlabel.RemoveManagedLabel optedOutObj = optedOutObj.
Proof.
  split; [|split].
  - exact (proj1 (managedlabel_proofs.X4_managed_label_round_trips managedObj)
             eq_refl).
  - exact (proj1 (proj2 (managedlabel_proofs.X4_managed_label_round_trips bareObj))
             eq_refl).
  - reflexivity.
Defined.

(** X5 with a library that builds the client, and with one that returns a
    nil configuration without error. *)
Lemma X5_NewClusterClientSet_outcomes_witness :
  clusterclient.NewClusterClientSet libNilConfig cluster2 hostClient fedNS 30
    = clusterclient.Panics
  /\ exists cc,
       clusterclient.NewClusterClientSet libGood cluster2 hostClient fedNS 30
         = clusterclient.Returns (Some cc, None)
       /\ clusterclient.cc_clusterName cc = "cluster2"
       /\ is_Some (clusterclient.usable cc).
Proof.
  split.
  - apply (proj1 (proj2 (clusterclient_proofs.X5_NewClusterClientSet_outcomes
                           libNilConfig cluster2 hostClient fedNS 30))).
    reflexivity.
  - eexists. split; [reflexivity|].
    destruct (proj2 (proj2 (clusterclient_proofs.X5_NewClusterClientSet_outcomes
                              libGood cluster2 hostClient fedNS 30))
                _ _ eq_refl) as (_ & Hname & Huse & _).
    split; [exact Hname | exact Huse].
Defined.

(** X6 when the member is the host itself (no delete), and on a member of
    its own (the namespace is deleted). *)
Lemma X6_primary_cluster_guard_witness :
  requestsOf (deleteFedNSFromUnjoinCluster envPrimary hostCS hostCS fedNS
                "cluster1" false []).2
    = [ Build_Request hostServer GET Namespaces "" fedNS;
        Build_Request hostServer GET Namespaces "" fedNS ]
  /\ (deleteFedNSFromUnjoinCluster envPrimary hostCS hostCS fedNS
        "cluster1" false []).1 = None
  /\ requestsOf (deleteFedNSFromUnjoinCluster envHealthy hostCS memberCS fedNS
                   "cluster2" false []).2
     = [ Build_Request hostServer GET Namespaces "" fedNS;
         Build_Request memberServer GET Namespaces "" fedNS;
         Build_Request memberServer DELETE Namespaces "" fedNS ].
Proof.
  assert (deleteFedNSFromUnjoinCluster envPrimary hostCS hostCS fedNS
            "cluster1" false []
          = (None,
             [ Enter fn_deleteFedNSFromUnjoinCluster;
               Api (Build_Request hostServer GET Namespaces "" fedNS) None;
               Api (Build_Request hostServer GET Namespaces "" fedNS) None;
               Enter fn_IsPrimaryCluster ])) as Hprimary
    by exact (X6_primary_cluster_guard envPrimary hostCS hostCS fedNS
                "cluster1" _ _ eq_refl eq_refl).
  assert ((deleteFedNSFromUnjoinCluster envHealthy hostCS memberCS fedNS
             "cluster2" false []).2
          = [ Enter fn_deleteFedNSFromUnjoinCluster;
              Api (Build_Request hostServer GET Namespaces "" fedNS) None;
              Api (Build_Request memberServer GET Namespaces "" fedNS) None;
              Enter fn_IsPrimaryCluster;
              Api (Build_Request memberServer DELETE Namespaces "" fedNS) None ])
    as Hother
    by exact (proj1 (X6_primary_cluster_guard envHealthy hostCS memberCS fedNS
                       "cluster2" _ _ eq_refl eq_refl)).
  rewrite Hprimary, Hother. repeat split.
Defined.

(** X8 with a host clientset that cannot be built, under --force. *)
Lemma X8_host_failure_is_fatal_witness :
  unjoin envNoHost true false = (Some unreachable, []).
Proof.
  apply (X8_host_failure_is_fatal envNoHost (Some hostCfg) (Some memberCfg)
           fedNS "cluster1" "cluster1" "cluster2" "cluster2" true false
           unreachable).
  left. reflexivity.
Defined.

(** X10 when [UnjoinCluster] is given no member configuration. *)
Lemma X10_no_member_client_no_force_witness :
  UnjoinCluster envHealthy (Some hostCfg) None fedNS "cluster1" "cluster1"
    "cluster2" "cluster2" false false []
  = (None, []).
Proof.
  exact (X10_no_member_client_no_force envHealthy (Some hostCfg) None fedNS
           "cluster1" "cluster1" "cluster2" "cluster2" false false
           hostCS hostClient eq_refl eq_refl eq_refl eq_refl).
Defined.

(** X11 with two arguments: accepted with no cluster context given, and
    refused for a host context with a colon in it, the second argument
    making no difference either time. *)
Lemma X11_Complete_result_witness :
  let j := {| Global := Global (unjoinOpts false false);
              Common := {| ClusterName := ""; ClusterContext := "";
                           HostClusterName := "" |};
              forceDeletion := false |} in
  let bad := {| Global := {| HostClusterContext := "admin:cluster1";
                             KubefedNamespace := fedNS;
                             Kubeconfig := "";
                             DryRun := false |};
                Common := Common j;
                forceDeletion := false |} in
  (exists j', Complete j ["cluster2"; "ignored"] = (None, j')
              /\ ClusterName (Common j') = "cluster2"
              /\ ClusterContext (Common j') = "cluster2")
  /\ Complete bad ["cluster2"; "ignored"] = Complete bad ["cluster2"]
  /\ is_Some (Complete bad ["cluster2"; "ignored"]).1.
Proof.
  intros j bad. split; [|split].
  - exists (Complete j ["cluster2"; "ignored"]).2.
    split; [reflexivity|].
    destruct (proj2 (X11_Complete_result j "cluster2" ["ignored"])
                (Complete j ["cluster2"; "ignored"]).2 eq_refl)
      as (Hname & Hctx & _).
    split; [exact Hname | exact Hctx].
  - exact (proj1 (X11_Complete_result bad "cluster2" ["ignored"])).
  - rewrite (proj1 (X11_Complete_result bad "cluster2" ["ignored"])).
    by eexists.
Defined.

(** X12 with host context "cluster1" and no override. *)
Lemma X12_validated_host_name_witness :
  ~ In ":"%char (list_ascii_of_string "cluster1")
  /\ Run envHealthy (unjoinOpts false false) kubeconfig []
     = unjoin envHealthy false false.
Proof.
  destruct (X12_validated_host_name envHealthy kubeconfig
              (unjoinOpts false false) ["cluster2"] (unjoinOpts false false)
              eq_refl)
    as (Hcolon & _ & Hrun).
  split; [exact Hcolon|].
  exact (Hrun (Some hostCfg) (Some memberCfg) eq_refl eq_refl).
Defined.

(** X14 on the three nodes and their reverse: the same zones, but another
    region. *)
Lemma X14_zones_ignore_listing_order_witness :
  (kubefedcluster.GetClusterZones (member "ok" None threeNodes)).1.1
    = (kubefedcluster.GetClusterZones (member "ok" None threeNodesReversed)).1.1
  /\ (kubefedcluster.GetClusterZones (member "ok" None threeNodes)).1.2 = "r1"
  /\ (kubefedcluster.GetClusterZones (member "ok" None threeNodesReversed)).1.2
     = "r2".
Proof.
  split; [|split; reflexivity].
  apply (kubefedcluster_more.X14_zones_ignore_listing_order
           (member "ok" None threeNodes) (member "ok" None threeNodesReversed)
           threeNodes threeNodesReversed eq_refl eq_refl).
  unfold threeNodes, threeNodesReversed.
  rewrite <- (Permutation_rev [node "a" "r1"; node "a" "r2"; node "b" "r2"]).
  reflexivity.
Defined.

(** X15 on a node whose labels are met in reverse order. *)
Lemma X15_label_lookup_ignores_iteration_order_witness :
  kubefedcluster.rangeFind kubefedcluster.LabelZoneFailureDomain
    (reverse (map_to_list (kubefedcluster.Labels (node "a" "r1"))))
  = "a".
Proof.
  destruct (kubefedcluster_more.X15_label_lookup_ignores_iteration_order
              (node "a" "r1")
              (reverse (map_to_list (kubefedcluster.Labels (node "a" "r1")))))
    as (Hzone & _ & Hlookup & _).
  - apply reverse_Permutation.
  - rewrite Hzone, Hlookup. reflexivity.
Defined.

(** X16 on the scenario run: every request went where it belongs. *)
Lemma X16_requests_are_routed_witness :
  Forall (routed hostCS hostClient memberCS) (unjoin envHealthy false false).2.
Proof.
  exact (X16_requests_are_routed envHealthy hostCS hostClient memberCS
           (Some hostCfg) (Some memberCfg) fedNS "cluster1" "cluster1"
           "cluster2" "cluster2" false false eq_refl eq_refl
           (or_introl eq_refl)).
Defined.

(** X2 on an object opted out with managed:false (it stays as it is) and
    on a managed one (the key goes). *)
Lemma X2_RemoveManagedLabel_unmarks_witness :
  managedlabel.RemoveManagedLabel optedOutObj = optedOutObj
  /\ managedlabel.CheckManagedLabel (managedlabel.RemoveManagedLabel optedOutObj)
     = true
  /\ managedlabel_proofs.labelOf (managedlabel.RemoveManagedLabel managedObj)
       managedlabel.ManagedByKubeFedLabelKey = None.
Proof.
  pose proof (managedlabel_proofs.X2_RemoveManagedLabel_unmarks optedOutObj)
    as (_ & Hcheck & Hnoop & _).
  pose proof (managedlabel_proofs.X2_RemoveManagedLabel_unmarks managedObj)
    as (_ & _ & _ & Hgone).
  split; [exact (Hnoop eq_refl)|]. split; [|exact (Hgone eq_refl)].
  rewrite Hcheck. reflexivity.
Defined.

End MoreInstances.
